(** * VaR analysis: a shallow embedding of [riskvar_analysis.py]

    The program loads a dated price table, derives daily log returns and
    computes two Value-at-Risk estimates (historical quantile and
    parametric mean + z * sigma), then prints a report.

    Numbers.  Python floats are modelled as the type [float] below: a real
    number, or one of the three special values NaN, -inf, +inf.  Finite
    arithmetic is exact real arithmetic (no rounding, no overflow, no signed
    zero); the special values follow IEEE-754 propagation.  A theorem over
    this type states which formula the code evaluates; it does not state
    that two differently ordered evaluations give the same double.  Where
    the order of evaluation matters, the module [IEEE] evaluates the same
    formulas on binary64 numbers.

    Libraries.  pandas, numpy and scipy are not part of the repository.
    Their functions are modelled from their documented behaviour
    ([Series.quantile], [Series.mean], [Series.std], [DataFrame.dropna],
    [Series.shift], [numpy.log], the range check of [pyplot.hist]);
    [scipy.stats.norm.ppf] is the inverse of the standard normal
    distribution function, defined below by its integral.  The row sort
    [DataFrame.sort_values] and the file system behind
    [pandas.read_excel] are parameters of the analyzer; numpy's default
    sort is modelled as one instance of the former. *)

From Stdlib Require Import Reals Lra Lia ZArith List String Epsilon.
From Stdlib Require Floats.
From Stdlib Require Import Sorting.Permutation Sorting.Sorted.
From stdpp Require Import base list sorting gmap strings.

Open Scope R_scope.

(* ================================================================== *)
(** * Floating-point values *)
(* ================================================================== *)

Inductive float : Type :=
  | NaN
  | NInf
  | PInf
  | Fin (x : R).

(** Sign of a real number relative to zero. *)
Definition Rsign (x : R) : comparison :=
  match total_order_T x 0 with
  | inleft (left _) => Lt
  | inleft (right _) => Eq
  | inright _ => Gt
  end.

Definition Rleb (x y : R) : bool := if Rle_dec x y then true else false.

(** Sign of a value that is not NaN. *)
Definition fsign (a : float) : comparison :=
  match a with
  | NaN => Eq
  | NInf => Lt
  | PInf => Gt
  | Fin x => Rsign x
  end.

(** The infinity of a given sign; a zero sign is the invalid operation. *)
Definition inf_of_sign (c : comparison) : float :=
  match c with
  | Lt => NInf
  | Eq => NaN
  | Gt => PInf
  end.

Definition sign_mul (c d : comparison) : comparison :=
  match c, d with
  | Eq, _ | _, Eq => Eq
  | Lt, Lt | Gt, Gt => Gt
  | Lt, Gt | Gt, Lt => Lt
  end.

Definition notna (a : float) : bool :=
  match a with
  | NaN => false
  | _ => true
  end.

Definition fneg (a : float) : float :=
  match a with
  | NaN => NaN
  | NInf => PInf
  | PInf => NInf
  | Fin x => Fin (- x)
  end.

Definition fadd (a b : float) : float :=
  match a, b with
  | NaN, _ | _, NaN => NaN
  | PInf, NInf | NInf, PInf => NaN
  | PInf, _ | _, PInf => PInf
  | NInf, _ | _, NInf => NInf
  | Fin x, Fin y => Fin (x + y)
  end.

Definition fsub (a b : float) : float := fadd a (fneg b).

Definition fmul (a b : float) : float :=
  match a, b with
  | NaN, _ | _, NaN => NaN
  | Fin x, Fin y => Fin (x * y)
  | _, _ => inf_of_sign (sign_mul (fsign a) (fsign b))
  end.

(** Division; a finite value over zero is a signed infinity (NaN for 0/0),
    anything finite over an infinity is zero. *)
Definition fdiv (a b : float) : float :=
  match a, b with
  | NaN, _ | _, NaN => NaN
  | Fin x, Fin y =>
      match Rsign y with
      | Eq => inf_of_sign (Rsign x)
      | _ => Fin (x / y)
      end
  | Fin _, _ => Fin 0
  | _, Fin y =>
      match Rsign y with
      | Lt => fneg a
      | _ => a
      end
  | _, _ => NaN
  end.

(** [numpy.log]. *)
Definition np_log (a : float) : float :=
  match a with
  | NaN | NInf => NaN
  | PInf => PInf
  | Fin x =>
      match Rsign x with
      | Lt => NaN
      | Eq => NInf
      | Gt => Fin (ln x)
      end
  end.

(** [numpy.sqrt]. *)
Definition np_sqrt (a : float) : float :=
  match a with
  | NaN | NInf => NaN
  | PInf => PInf
  | Fin x =>
      match Rsign x with
      | Lt => NaN
      | _ => Fin (sqrt x)
      end
  end.

(** Order used when sorting values: -inf below every real, +inf above.
    NaN never reaches a sort (it is dropped first). *)
Definition fleb (a b : float) : bool :=
  match a, b with
  | NInf, _ => true
  | _, PInf => true
  | Fin x, Fin y => Rleb x y
  | _, _ => false
  end.

Definition fle (a b : float) : Prop := fleb a b = true.

(* ================================================================== *)
(** * pandas Series of floats *)
(* ================================================================== *)

Section Sort.
Context {A : Type} (leb : A -> A -> bool).

Fixpoint insert_sorted (x : A) (l : list A) : list A :=
  match l with
  | [] => [x]
  | y :: l' => if leb x y then x :: l else y :: insert_sorted x l'
  end.

(** Ascending sort of the values of a column. *)
Fixpoint sort_ascending (l : list A) : list A :=
  match l with
  | [] => []
  | x :: l' => insert_sorted x (sort_ascending l')
  end.
End Sort.

(* ================================================================== *)
(** * numpy's default sort *)
(* ================================================================== *)

(** [DataFrame.sort_values(by='Date')] leaves [kind] at its default
    ['quicksort']: pandas asks numpy for the argsort of the key column and
    takes the rows in that order.  For a key column that is not a plain
    numeric type (dates are [datetime64]) this is the index introsort
    [aquicksort_] of numpy's [npysort/quicksort.cpp]: median-of-three
    quicksort on an explicit stack, insertion sort once a range has at
    most 17 entries, heapsort once the depth limit is used up.  The model
    follows that routine statement by statement on the index array
    [tosort]; every loop carries a bound on its iterations. *)
Section Argsort.

(** The keys, and the index array being permuted. *)
Variable v : list Z.

Definition key (i : nat) : Z := nth i v 0%Z.


















End Argsort.

Inductive exn : Type :=
  | TypeError
  | ValueError
  | KeyError (key : string).

Inductive pyresult (A : Type) : Type :=
  | Return (a : A)
  | Raise (e : exn).
Arguments Return {A} a.
Arguments Raise {A} e.

Abbreviation Series := (list float).

(** Missing values are skipped by every reduction used here. *)
Definition Series_dropna (s : Series) : Series := filter (fun a => notna a = true) s.

Definition fsum (s : Series) : float := foldr fadd (Fin 0) s.

(** [Series.quantile(q)] with the default linear interpolation: on the
    sorted values, position [h = (n-1) q]; between the order statistics
    [lo] at [floor h] and [hi] at the next index the result lies the
    fraction [t = h - floor h] of the way.  numpy evaluates this as
    [lo + (hi - lo) * t] below one half and as [hi - (hi - lo) * (1 - t)]
    from one half on.  A [q] outside [0,1] raises; a series with no value
    gives NaN. *)
Definition Series_quantile (s : Series) (q : R) : pyresult float :=
  if Rle_dec 0 q then
    if Rle_dec q 1 then
      let values := sort_ascending fleb (Series_dropna s) in
      let n := length values in
      match n with
      | O => Return NaN
      | S m =>
          let h := INR m * q in
          let i := Z.to_nat (Zfloor h) in
          let j := Nat.min (S i) m in
          let fraction := h - IZR (Zfloor h) in
          let lo := nth i values NaN in
          let hi := nth j values NaN in
          if Rle_dec (1 / 2) fraction
          then Return (fsub hi (fmul (fsub hi lo) (Fin (1 - fraction))))
          else Return (fadd lo (fmul (fsub hi lo) (Fin fraction)))
      end
    else Raise ValueError
  else Raise ValueError.

(** [Series.mean()]: sum of the values over their count (NaN when there
    is none). *)
Definition Series_mean (s : Series) : float :=
  let values := Series_dropna s in
  fdiv (fsum values) (Fin (INR (length values))).

(** [Series.std(ddof)]: square root of the sum of squared deviations from
    the mean over [count - ddof]; NaN when [count <= ddof]. *)
Definition Series_std (ddof : nat) (s : Series) : float :=
  let values := Series_dropna s in
  let count := length values in
  if (count <=? ddof)%nat then NaN
  else
    let avg := fdiv (fsum values) (Fin (INR count)) in
    let sqr := fsum (map (fun x => fmul (fsub avg x) (fsub avg x)) values) in
    np_sqrt (fdiv sqr (Fin (INR count - INR ddof))).

(** [numpy.mean] and [numpy.std] applied to a Series dispatch to the
    Series methods; [numpy.std] passes its own default [ddof=0]. *)
Definition np_mean (s : Series) : float := Series_mean s.
Definition np_std (s : Series) : float := Series_std 0 s.

(** [Series.shift(1)]: every value moves one row down, the first row
    receives NaN and the last value is lost. *)
Definition Series_shift1 (s : Series) : Series := take (length s) (NaN :: s).

(* ================================================================== *)
(** * The price table *)
(* ================================================================== *)

(** One row of the workbook as [pandas.read_excel] delivers it: the date
    (already a point in time), the closing price and the cells of the
    remaining columns.  A blank numeric cell is NaN. *)
Record SheetRow : Type := mkSheetRow {
  Date : Z;
  Close : float;
  Others : list float
}.

(** One row of [self.data] once the ['Returns'] column is attached. *)
Record Row : Type := mkRow {
  cells : SheetRow;
  Returns : float
}.

Abbreviation DataFrame := (list Row).

Definition column_Close (rows : list SheetRow) : Series := map Close rows.
Definition column_Returns (df : DataFrame) : Series := map Returns df.

(** A row survives [DataFrame.dropna()] when none of its cells is missing. *)
Definition row_notna (r : Row) : bool :=
  notna (Close (cells r)) && forallb notna (Others (cells r)) && notna (Returns r).

Definition DataFrame_dropna (df : DataFrame) : DataFrame :=
  filter (fun r => row_notna r = true) df.

(** The ordering that [sort_values(by='Date')] establishes. *)
Definition Date_le (a b : SheetRow) : Prop := (Date a <= Date b)%Z.

(** Two concrete row sorts.  The first is a stable insertion sort on the
    dates.  The second is what the default [kind] does: the rows taken in
    the order of numpy's argsort of the date column. *)
Definition Date_leb (a b : SheetRow) : bool := (Date a <=? Date b)%Z.
Definition sort_by_date_stable (rows : list SheetRow) : list SheetRow :=
  sort_ascending Date_leb rows.


(** Rows of equal date keep their input order: for every date, the rows
    of that date read off the output occur in the same relative order
    among the rows of that date in the input. *)
Definition ties_in_input_order (input output : list SheetRow) : Prop :=
  forall d : Z,
    sublist (filter (fun r => Date r = d) output)
            (filter (fun r => Date r = d) input).

(* ================================================================== *)
(** * Standard output *)
(* ================================================================== *)

(** A printed line is a sequence of fragments; a formatted number keeps
    its value and its format. *)
Inductive fragment : Type :=
  | Text (s : string)
  | Count (n : nat)
  | Value (x : float)
  | Fixed (digits : nat) (x : float)
  | Percent (digits : nat) (x : float)
  | ExceptionText.

Abbreviation line := (list fragment).

(** A histogram with vertical marker lines, each at a value and with a
    legend label. *)
Record chart : Type := mkChart {
  histogram : Series;
  bins : nat;
  markers : list (float * line)
}.

(* ================================================================== *)
(** * The analyzer *)
(* ================================================================== *)

Record MarketRiskAnalyzer : Type := mkAnalyzer {
  file_path : string;
  confidence_level : R;
  data : option DataFrame;
  results : gmap string float
}.

Definition set_data (s : MarketRiskAnalyzer) (df : DataFrame) : MarketRiskAnalyzer :=
  mkAnalyzer (file_path s) (confidence_level s) (Some df) (results s).

Definition set_result (s : MarketRiskAnalyzer) (key : string) (v : float)
  : MarketRiskAnalyzer :=
  mkAnalyzer (file_path s) (confidence_level s) (data s) (<[key := v]> (results s)).

(** [dict.get(key, default)]. *)
Definition dict_get (d : gmap string float) (key : string) (dflt : float) : float :=
  default dflt (d !! key).

Definition rule40 : string := "========================================".
Definition dash40 : string := "----------------------------------------".

(* ================================================================== *)
(** * The standard normal distribution *)
(* ================================================================== *)

(** The Gaussian kernel [exp (- t^2 / 2)]. *)
Definition gauss (t : R) : R := exp (- (t * t) / 2).

(** The kernel is continuous, hence integrable between any two bounds. *)
Definition gauss_integrable (a b : R) : Riemann_integrable gauss a b.
Proof.
  assert (Hc : forall x : R, continuity_pt gauss x).
  { intros x. unfold gauss.
    apply (continuity_pt_comp (fun t => - (t * t) / 2) exp).
    - reg.
    - apply derivable_continuous_pt, derivable_pt_exp. }
  destruct (Rle_dec a b) as [Hab | Hab].
  - apply continuity_implies_RiemannInt; [exact Hab | intros x _; apply Hc].
  - apply RiemannInt_P1.
    apply continuity_implies_RiemannInt; [lra | intros x _; apply Hc].
Defined.

(** The standard normal distribution function, written from its value
    1/2 at the origin: [1/2 + (1 / sqrt (2 PI)) * integral of the kernel
    from 0 to x]. *)
Definition norm_cdf (x : R) : R :=
  1 / 2 + RiemannInt (gauss_integrable 0 x) / sqrt (2 * PI).

(** [scipy.stats.norm.ppf] on the open interval (0,1): the point at which
    the distribution function takes the value [p]. *)
Definition norm_ppf (p : R) : R :=
  epsilon (inhabits 0) (fun z => norm_cdf z = p).

Section Analyzer.

(** [pandas.read_excel]: the table stored under a path, or nothing when
    reading raises.  The tables considered are those of type [SheetRow]:
    they have the ['Date'] and ['Close'] columns the loader subscripts,
    numeric cells, and dates [pandas.to_datetime] accepts; on them reading
    is the only step of [load_data] that can raise.  A workbook without
    one of the two columns, where a later line of the [try] block raises
    after [self.data] is assigned, is outside this type. *)
Variable read_excel : string -> option (list SheetRow).

(** [DataFrame.sort_values(by='Date')]; the call leaves [kind] at its
    default ['quicksort']. *)
Variable sort_values : list SheetRow -> list SheetRow.

(** [scipy.stats.norm.ppf] on any real argument. *)
Definition stats_norm_ppf (p : R) : float :=
  match Rsign p, Rsign (p - 1) with
  | Gt, Lt => Fin (norm_ppf p)
  | Eq, _ => NInf
  | _, Eq => PInf
  | _, _ => NaN
  end.

(** [self.data['Returns'] = np.log(self.data['Close'] / self.data['Close'].shift(1))] *)
Definition attach_returns (rows : list SheetRow) : DataFrame :=
  let close := column_Close rows in
  zip_with mkRow rows
    (zip_with (fun c p => np_log (fdiv c p)) close (Series_shift1 close)).

Definition load_data (s : MarketRiskAnalyzer) : MarketRiskAnalyzer * list line :=
  let started := [Text "Loading data from "; Text (file_path s); Text "..."] in
  match read_excel (file_path s) with
  | Some sheet =>
      let sorted := sort_values sheet in
      let df := DataFrame_dropna (attach_returns sorted) in
      (set_data s df,
       [started;
        [Text "Data loaded successfully. Total trading days analyzed: ";
         Count (length df)]])
  | None =>
      (s, [started; [Text "Error loading data: "; ExceptionText]])
  end.

(** [MarketRiskAnalyzer(file_path, confidence_level)]. *)
Definition __init__ (path : string) (confidence : R) : MarketRiskAnalyzer * list line :=
  load_data (mkAnalyzer path confidence None ∅).

Definition calculate_historical_var (s : MarketRiskAnalyzer)
  : pyresult (option float) * MarketRiskAnalyzer :=
  match data s with
  | None => (Return None, s)
  | Some df =>
      let var_percentile := 1 - confidence_level s in
      match Series_quantile (column_Returns df) var_percentile with
      | Return var_value =>
          (Return (Some var_value), set_result s "Historical VaR" var_value)
      | Raise e => (Raise e, s)
      end
  end.

Definition calculate_parametric_var (s : MarketRiskAnalyzer)
  : pyresult (option float) * MarketRiskAnalyzer :=
  match data s with
  | None => (Return None, s)
  | Some df =>
      let mu := np_mean (column_Returns df) in
      let sigma := np_std (column_Returns df) in
      let z_score := stats_norm_ppf (1 - confidence_level s) in
      let var_value := fadd mu (fmul z_score sigma) in
      (Return (Some var_value), set_result s "Parametric VaR" var_value)
  end.

(** The lines printed before the report needs [self.data]. *)
Definition report_head (s : MarketRiskAnalyzer) : list line :=
  [ []; [Text rule40];
    [Text "   MARKET RISK ANALYSIS REPORT"];
    [Text rule40];
    [Text "Confidence Level: "; Value (Fin (confidence_level s * 100)); Text "%"] ].

Definition report_body (s : MarketRiskAnalyzer) (df : DataFrame) : list line :=
  [ [Text "Volatility (Daily): "; Fixed 4 (Series_std 1 (column_Returns df))];
    [Text dash40];
    [Text "1. Historical VaR:   ";
     Percent 4 (dict_get (results s) "Historical VaR" (Fin 0))];
    [Text "2. Parametric VaR:   ";
     Percent 4 (dict_get (results s) "Parametric VaR" (Fin 0))];
    [Text rule40];
    []; [Text "Interpretation:"];
    [Text "With "; Value (Fin (confidence_level s * 100));
     Text "% confidence, the maximum expected daily loss"];
    [Text "will not exceed ";
     Percent 2 (fmul (Fin (-1)) (dict_get (results s) "Parametric VaR" (Fin 0)));
     Text " (Parametric model)."] ].

(** The report: the lines written to standard output and how the call
    ends.  Subscripting [self.data] when it is [None] raises. *)
Definition generate_risk_report (s : MarketRiskAnalyzer)
  : list line * pyresult unit :=
  match data s with
  | None => (report_head s, Raise TypeError)
  | Some df => (report_head s ++ report_body s df, Return tt)
  end.

(** [pyplot.hist] takes the range of its bins from the smallest and the
    largest value that is not NaN, and raises ValueError when that range
    is not finite: when a value is infinite, or when there are values and
    all of them are NaN. *)
Definition is_inf (a : float) : bool :=
  match a with
  | NInf | PInf => true
  | _ => false
  end.

Definition hist_range_finite (x : Series) : bool :=
  match x with
  | [] => true
  | _ :: _ => negb (existsb is_inf x) && existsb notna x
  end.

(** The chart: the histogram of the returns in 50 bins and the two
    labelled threshold lines.  The histogram is drawn first; then the
    results are subscripted, so a missing entry raises. *)
Definition visualize_risk (s : MarketRiskAnalyzer) : pyresult chart :=
  match data s with
  | None => Raise TypeError
  | Some df =>
      if hist_range_finite (column_Returns df) then
        match results s !! "Historical VaR" with
        | None => Raise (KeyError "Historical VaR")
        | Some historical =>
            match results s !! "Parametric VaR" with
            | None => Raise (KeyError "Parametric VaR")
            | Some parametric =>
                Return (mkChart (column_Returns df) 50
                          [ (historical, [Text "Historical VaR ("; Percent 2 historical; Text ")"]);
                            (parametric, [Text "Parametric VaR ("; Percent 2 parametric; Text ")"]) ])
            end
        end
      else Raise ValueError
  end.

(** The entry point: its two settings and the calls in order.  A call
    that raises ends the run; what was printed so far stays printed. *)
Definition INPUT_FILE : string := "market_data.xlsx".
Definition CONFIDENCE : R := 97 / 100.

Definition main : list line * pyresult chart :=
  let (risk_engine, loading) := __init__ INPUT_FILE CONFIDENCE in
  match calculate_historical_var risk_engine with
  | (Raise e, _) => (loading, Raise e)
  | (Return _, risk_engine) =>
      match calculate_parametric_var risk_engine with
      | (Raise e, _) => (loading, Raise e)
      | (Return _, risk_engine) =>
          let (report, outcome) := generate_risk_report risk_engine in
          match outcome with
          | Raise e => (loading ++ report, Raise e)
          | Return _ => (loading ++ report, visualize_risk risk_engine)
          end
      end
  end.

End Analyzer.

(* ================================================================== *)
(** * The parametric estimate on binary64 numbers *)
(* ================================================================== *)

(** The arithmetic of [calculate_parametric_var] on IEEE-754 doubles,
    rounding included, for a series of fewer than eight finite values:
    numpy adds that many values one after the other from the left,
    starting at zero (longer arrays are added in blocks).  The mean is the
    sum over the count; the deviation is the root of the mean squared
    distance to that mean; the estimate is [mu + z_score * sigma]. *)
Module IEEE.
Import Floats.
Set Warnings "-inexact-float".
#[local] Open Scope float_scope.

Definition sum64 (x : list PrimFloat.float) : PrimFloat.float :=
  List.fold_left PrimFloat.add x 0.

Definition count64 (x : list PrimFloat.float) : PrimFloat.float :=
  PrimFloat.of_uint63 (Uint63.of_Z (Z.of_nat (length x))).

Definition mean64 (x : list PrimFloat.float) : PrimFloat.float :=
  sum64 x / count64 x.

Definition std64 (x : list PrimFloat.float) : PrimFloat.float :=
  let avg := sum64 x / count64 x in
  PrimFloat.sqrt (sum64 (map (fun v => (avg - v) * (avg - v)) x) / count64 x).

Definition parametric_var64 (z_score : PrimFloat.float) (x : list PrimFloat.float)
  : PrimFloat.float :=
  mean64 x + z_score * std64 x.

(** [norm.ppf(0.5)], the z-score at confidence level 0.5. *)
Definition z_median : PrimFloat.float := 0.

(** The four returns of the sample, and the same four with the two in the
    middle exchanged. *)
Definition returns64 : list PrimFloat.float := [0.01; -0.02; 0.015; -0.005].
Definition reordered_returns64 : list PrimFloat.float := [0.01; 0.015; -0.02; -0.005].

End IEEE.

(* ================================================================== *)
(** * Sample inputs *)
(* ================================================================== *)

(** A workbook holding one table, whatever the path. *)
Definition workbook (sheet : list SheetRow) : string -> option (list SheetRow) :=
  fun _ => Some sheet.

Definition new_analyzer (confidence : R) : MarketRiskAnalyzer :=
  mkAnalyzer "market_data.xlsx" confidence None ∅.

Definition loaded_analyzer (confidence : R) (df : DataFrame) : MarketRiskAnalyzer :=
  mkAnalyzer "market_data.xlsx" confidence (Some df) ∅.

(** Four daily returns with mean zero. *)
Definition sample_returns : list R := [1 / 100; - 2 / 100; 15 / 1000; - 5 / 1000].

Definition frame_of_returns (rs : list R) : DataFrame :=
  map (fun r => mkRow (mkSheetRow 0 (Fin 100) []) (Fin r)) rs.

(** Five trading days, given out of order. *)
Definition five_days : list SheetRow :=
  [ mkSheetRow 3 (Fin 99) []; mkSheetRow 1 (Fin 100) []; mkSheetRow 2 (Fin 101) [];
    mkSheetRow 5 (Fin 98) []; mkSheetRow 4 (Fin 102) [] ].

(** Three days at one price. *)
Definition flat_days : list SheetRow :=
  [ mkSheetRow 1 (Fin 100) []; mkSheetRow 2 (Fin 100) []; mkSheetRow 3 (Fin 100) [] ].

(** A single day. *)
Definition one_day : list SheetRow := [ mkSheetRow 1 (Fin 100) [] ].

(** Three days with a volume column; the volume of the second is blank. *)
Definition blank_volume_days : list SheetRow :=
  [ mkSheetRow 1 (Fin 100) [Fin 5000]; mkSheetRow 2 (Fin 101) [NaN];
    mkSheetRow 3 (Fin 102) [Fin 7000] ].



(** The same row at [k] times the price. *)
Definition scale_Close (k : R) (r : SheetRow) : SheetRow :=
  mkSheetRow (Date r) (fmul (Fin k) (Close r)) (Others r).

(* ================================================================== *)
(** * Real-valued statistics of a finite sample *)
(* ================================================================== *)

(** The quantities the claims are stated with, written over real numbers
    and independently of the float-level functions above. *)

Definition Rsum (rs : list R) : R := foldr Rplus 0 rs.

(** Arithmetic mean. *)
Definition mean (rs : list R) : R := Rsum rs / INR (length rs).

(** Population standard deviation (divisor N). *)
Definition population_std (rs : list R) : R :=
  sqrt (Rsum (map (fun x => (x - mean rs) * (x - mean rs)) rs) / INR (length rs)).

(** The linear-interpolation quantile between order statistics: [v] is the
    quantile of the sample [rs] at fraction [p] when, on the ascending
    arrangement [ys] of the sample, the rank [(n-1) p] splits into a whole
    part [k] and a fractional part [t], and [v] lies the fraction [t] of
    the way from the order statistic [k] to the next one. *)
Definition linear_interpolation_quantile (rs : list R) (p v : R) : Prop :=
  exists (ys : list R) (k : nat) (t : R),
    rs ≡ₚ ys /\ Sorted Rle ys /\
    INR (length ys - 1) * p = INR k + t /\ 0 <= t < 1 /\
    v = nth k ys 0 + t * (nth (S k) ys 0 - nth k ys 0).

(** Sample standard deviation (divisor N-1). *)
Definition sample_std (rs : list R) : R :=
  sqrt (Rsum (map (fun x => (x - mean rs) * (x - mean rs)) rs)
        / (INR (length rs) - 1)).

(** The value [Series_quantile] computes on an ascending list of reals. *)
Definition interpolate (ys : list R) (q : R) : R :=
  let m := (length ys - 1)%nat in
  let h := INR m * q in
  let i := Z.to_nat (Zfloor h) in
  let j := Nat.min (S i) m in
  nth i ys 0 + (nth j ys 0 - nth i ys 0) * (h - IZR (Zfloor h)).

(* ================================================================== *)
(** * Facts about floats *)
(* ================================================================== *)

Lemma Rsign_pos (x : R) : 0 < x -> Rsign x = Gt.
Proof.
  intros Hx. unfold Rsign.
  destruct (total_order_T x 0) as [[Hlt | Heq] | Hgt]; try reflexivity; lra.
Qed.

Lemma Rsign_neg (x : R) : x < 0 -> Rsign x = Lt.
Proof.
  intros Hx. unfold Rsign.
  destruct (total_order_T x 0) as [[Hlt | Heq] | Hgt]; try reflexivity; lra.
Qed.

Lemma Rsign_zero : Rsign 0 = Eq.
Proof.
  unfold Rsign.
  destruct (total_order_T 0 0) as [[Hlt | Heq] | Hgt]; try reflexivity; lra.
Qed.

Lemma Rsign_nonneg (x : R) : 0 <= x -> Rsign x <> Lt.
Proof.
  intros Hx. unfold Rsign.
  destruct (total_order_T x 0) as [[Hlt | Heq] | Hgt]; try discriminate; lra.
Qed.

Lemma Rleb_le (x y : R) : Rleb x y = true <-> x <= y.
Proof. unfold Rleb. destruct (Rle_dec x y); split; intros; try done. Qed.

Lemma Rleb_total (x y : R) : Rleb x y = false -> Rleb y x = true.
Proof.
  unfold Rleb. destruct (Rle_dec x y), (Rle_dec y x); intros; try done. lra.
Qed.

Lemma np_sqrt_Fin (x : R) : 0 <= x -> np_sqrt (Fin x) = Fin (sqrt x).
Proof.
  intros Hx. simpl. pose proof (Rsign_nonneg x Hx).
  destruct (Rsign x); congruence.
Qed.

Lemma fdiv_Fin (x y : R) : y <> 0 -> fdiv (Fin x) (Fin y) = Fin (x / y).
Proof.
  intros Hy. simpl. unfold Rsign.
  destruct (total_order_T y 0) as [[Hlt | Heq] | Hgt]; try reflexivity; lra.
Qed.

Lemma np_log_ratio (c p : R) :
  0 < c -> 0 < p -> np_log (fdiv (Fin c) (Fin p)) = Fin (ln (c / p)).
Proof.
  intros Hc Hp. rewrite fdiv_Fin by lra. simpl.
  rewrite Rsign_pos; [reflexivity |]. apply Rdiv_lt_0_compat; assumption.
Qed.

(* ================================================================== *)
(** * Facts about the normal distribution *)
(* ================================================================== *)

Lemma norm_cdf_0 : norm_cdf 0 = 1 / 2.
Proof. unfold norm_cdf. rewrite RiemannInt_P9. lra. Qed.

(** The kernel is bounded below by a positive constant on any interval,
    so its integral over a proper interval is positive. *)
Lemma gauss_integral_pos (a b : R) :
  a < b -> 0 < RiemannInt (gauss_integrable a b).
Proof.
  intros Hab.
  set (m := exp (- (a * a + b * b) / 2)).
  assert (Hm : 0 < m) by apply exp_pos.
  apply Rlt_le_trans with (m * (b - a)); [nra |].
  rewrite <- (RiemannInt_P15 (RiemannInt_P14 a b m)).
  apply RiemannInt_P19; [lra |].
  intros x Hx. unfold fct_cte, gauss, m.
  destruct (Rle_dec (- (a * a + b * b) / 2) (- (x * x) / 2)) as [Hle | Hn].
  - destruct Hle as [Hlt | Heq];
      [left; apply exp_increasing, Hlt | rewrite Heq; lra].
  - exfalso. apply Hn.
    assert (Hsq : x * x <= a * a + b * b)
      by (destruct (Rle_dec 0 x); nra).
    lra.
Qed.

Lemma norm_cdf_increasing (a b : R) : a < b -> norm_cdf a < norm_cdf b.
Proof.
  intros Hab. unfold norm_cdf.
  pose proof (RiemannInt_P26 (gauss_integrable 0 a) (gauss_integrable a b)
                (gauss_integrable 0 b)) as Hch.
  pose proof (gauss_integral_pos a b Hab) as Hpos.
  assert (Hs : 0 < / sqrt (2 * PI)).
  { apply Rinv_0_lt_compat, sqrt_lt_R0. pose proof PI_RGT_0. lra. }
  unfold Rdiv. nra.
Qed.

Lemma norm_cdf_inj (a b : R) : norm_cdf a = norm_cdf b -> a = b.
Proof.
  intros H. destruct (Rtotal_order a b) as [Hlt | [Heq | Hgt]]; [| exact Heq |].
  - apply norm_cdf_increasing in Hlt. lra.
  - apply norm_cdf_increasing in Hgt. lra.
Qed.

(** The quantile function inverts the distribution function. *)
Lemma norm_ppf_inverse (z : R) : norm_ppf (norm_cdf z) = z.
Proof.
  apply norm_cdf_inj. unfold norm_ppf.
  apply (epsilon_spec (inhabits 0) (fun y => norm_cdf y = norm_cdf z)).
  exists z. reflexivity.
Qed.

(** The median of the standard normal distribution is zero. *)
Lemma norm_ppf_median : norm_ppf (1 / 2) = 0.
Proof. rewrite <- norm_cdf_0. apply norm_ppf_inverse. Qed.

(* ================================================================== *)
(** * Facts about the ascending sort *)
(* ================================================================== *)

Section SortFacts.
Context {A : Type} (leb : A -> A -> bool).

Lemma insert_sorted_Permutation (x : A) (l : list A) :
  insert_sorted leb x l ≡ₚ x :: l.
Proof.
  induction l as [| y l IH]; simpl; [reflexivity |].
  destruct (leb x y); [reflexivity |].
  rewrite IH. apply Permutation_swap.
Qed.

Lemma sort_ascending_Permutation (l : list A) : sort_ascending leb l ≡ₚ l.
Proof.
  induction l as [| x l IH]; simpl; [reflexivity |].
  rewrite insert_sorted_Permutation, IH. reflexivity.
Qed.

Lemma sort_ascending_length (l : list A) :
  length (sort_ascending leb l) = length l.
Proof. apply Permutation_length, sort_ascending_Permutation. Qed.

(** Sortedness for a comparison that is total on the elements at hand;
    [le] is the relation the comparison decides there. *)
Context (le : relation A) (P : A -> Prop).
Hypothesis leb_le : forall a b, P a -> P b -> leb a b = true -> le a b.
Hypothesis leb_total : forall a b, P a -> P b -> leb a b = false -> le b a.

Lemma insert_sorted_Sorted (x : A) (l : list A) :
  P x -> Forall P l -> Sorted le l -> Sorted le (insert_sorted leb x l).
Proof.
  intros Hx HP Hs. induction Hs as [| y l Hs IH Hhd]; simpl.
  - repeat constructor.
  - apply Forall_cons in HP as [Hy HP].
    destruct (leb x y) eqn:Hxy.
    + constructor; [constructor; assumption |].
      constructor. apply leb_le; assumption.
    + constructor; [apply IH; assumption |].
      destruct Hhd as [| z l Hyz]; simpl.
      * constructor. apply leb_total; assumption.
      * apply Forall_cons in HP as [Hz HP].
        destruct (leb x z); constructor;
          [apply leb_total; assumption | assumption].
Qed.

Lemma sort_ascending_Sorted (l : list A) :
  Forall P l -> Sorted le (sort_ascending leb l).
Proof.
  induction l as [| x l IH]; simpl; intros HP; [constructor |].
  apply Forall_cons in HP as [Hx HP].
  apply insert_sorted_Sorted; [assumption | | apply IH; assumption].
  rewrite sort_ascending_Permutation. assumption.
Qed.
End SortFacts.

(** Sorting commutes with an embedding that preserves the comparison. *)
Lemma sort_ascending_map {A B : Type} (f : A -> B)
    (lebA : A -> A -> bool) (lebB : B -> B -> bool) (l : list A) :
  (forall a b, lebB (f a) (f b) = lebA a b) ->
  sort_ascending lebB (map f l) = map f (sort_ascending lebA l).
Proof.
  intros Hf. induction l as [| x l IH]; simpl; [reflexivity |].
  rewrite IH. generalize (sort_ascending lebA l) as s.
  induction s as [| y s IHs]; simpl; [reflexivity |].
  rewrite Hf. destruct (lebA x y); simpl; [reflexivity |].
  rewrite IHs. reflexivity.
Qed.

(* ================================================================== *)
(** * Finite series: the float functions read over the reals *)
(* ================================================================== *)

#[local] Instance Rle_Transitive : Transitive Rle.
Proof. intros x y z. apply Rle_trans. Qed.

#[local] Instance Rle_AntiSymm : AntiSymm (=) Rle.
Proof. intros x y. apply Rle_antisym. Qed.

Lemma sort_ascending_Rleb_Sorted (rs : list R) :
  Sorted Rle (sort_ascending Rleb rs).
Proof.
  apply (sort_ascending_Sorted Rleb Rle (fun _ => True)).
  - intros a b _ _. apply Rleb_le.
  - intros a b _ _ H. apply Rleb_le, Rleb_total, H.
  - apply Forall_forall. intros; exact I.
Qed.

(** An ascending arrangement of a sample is unique. *)
Lemma sort_ascending_Rleb_unique (rs ys : list R) :
  rs ≡ₚ ys -> Sorted Rle ys -> ys = sort_ascending Rleb rs.
Proof.
  intros Hp Hs. apply (Sorted_unique Rle); [assumption | |].
  - apply sort_ascending_Rleb_Sorted.
  - rewrite sort_ascending_Permutation. symmetry. assumption.
Qed.

Lemma sort_ascending_Rleb_perm (rs rs' : list R) :
  rs ≡ₚ rs' -> sort_ascending Rleb rs = sort_ascending Rleb rs'.
Proof.
  intros Hp. apply sort_ascending_Rleb_unique.
  - rewrite <- Hp. symmetry. apply sort_ascending_Permutation.
  - apply sort_ascending_Rleb_Sorted.
Qed.

(** In an ascending list the order statistics are ascending. *)
Lemma Sorted_nth_le (ys : list R) (a b : nat) :
  Sorted Rle ys -> (a <= b)%nat -> (b < length ys)%nat ->
  nth a ys 0 <= nth b ys 0.
Proof.
  intros Hs. apply Sorted_StronglySorted in Hs; [| apply Rle_Transitive].
  revert a b. induction Hs as [| y ys Hs IH Hall]; simpl; intros a b Hab Hb.
  - lia.
  - destruct a as [| a], b as [| b]; try lia.
    + lra.
    + rewrite Forall_forall in Hall. apply Hall.
      apply list_elem_of_In, nth_In. lia.
    + apply IH; lia.
Qed.

Lemma Series_dropna_Fin (rs : list R) : Series_dropna (map Fin rs) = map Fin rs.
Proof.
  unfold Series_dropna. induction rs as [| r rs IH]; [reflexivity |].
  rewrite map_cons, filter_cons_True by reflexivity. rewrite IH. reflexivity.
Qed.

Lemma fsum_Fin (rs : list R) : fsum (map Fin rs) = Fin (Rsum rs).
Proof.
  unfold fsum, Rsum. induction rs as [| r rs IH]; simpl; [reflexivity |].
  rewrite IH. reflexivity.
Qed.

Lemma sort_ascending_Fin (rs : list R) :
  sort_ascending fleb (map Fin rs) = map Fin (sort_ascending Rleb rs).
Proof. apply sort_ascending_map. reflexivity. Qed.

Lemma nth_Fin (ys : list R) (i : nat) :
  (i < length ys)%nat -> nth i (map Fin ys) NaN = Fin (nth i ys 0).
Proof.
  intros Hi. rewrite (nth_indep _ NaN (Fin 0)) by (rewrite length_map; assumption).
  apply (map_nth Fin).
Qed.

Lemma INR_length_pos {A : Type} (l : list A) : l <> [] -> 0 < INR (length l).
Proof.
  intros Hl. destruct l as [| x l]; [congruence |].
  apply lt_0_INR. simpl. lia.
Qed.

(** Rank arithmetic: for a fraction in [0,1] the whole part of the rank
    is an index of the sample. *)
Lemma rank_floor (m : nat) (q : R) :
  0 <= q <= 1 ->
  let h := INR m * q in
  (0 <= Zfloor h)%Z /\ (Z.to_nat (Zfloor h) <= m)%nat /\
  INR (Z.to_nat (Zfloor h)) = IZR (Zfloor h) /\
  0 <= h - IZR (Zfloor h) < 1.
Proof.
  intros Hq h.
  assert (Hm : 0 <= INR m) by apply pos_INR.
  assert (Hh0 : 0 <= h) by (unfold h; nra).
  assert (Hhm : h <= INR m) by (unfold h; nra).
  pose proof (Zfloor_bound h) as Hb.
  assert (H0 : (0 <= Zfloor h)%Z) by (apply Zfloor_lub; simpl; lra).
  assert (Hle : (Zfloor h <= Z.of_nat m)%Z).
  { apply le_IZR. rewrite <- INR_IZR_INZ. lra. }
  repeat split; try lra; try lia.
  rewrite INR_IZR_INZ, Z2Nat.id by assumption. reflexivity.
Qed.

(** [Series.quantile] on a non-empty finite series. *)
Lemma Series_quantile_Fin (rs : list R) (q : R) :
  rs <> [] -> 0 <= q <= 1 ->
  Series_quantile (map Fin rs) q
  = Return (Fin (interpolate (sort_ascending Rleb rs) q)).
Proof.
  intros Hne [Hq0 Hq1]. unfold Series_quantile, interpolate.
  destruct (Rle_dec 0 q) as [_ | Hn]; [| contradiction].
  destruct (Rle_dec q 1) as [_ | Hn]; [| contradiction].
  rewrite Series_dropna_Fin, sort_ascending_Fin, length_map.
  rewrite sort_ascending_length.
  destruct rs as [| r rs]; [congruence |].
  set (ys := sort_ascending Rleb (r :: rs)).
  assert (Hlen : length ys = S (length rs))
    by apply (sort_ascending_length Rleb (r :: rs)).
  change (length (r :: rs)) with (S (length rs)).
  replace (S (length rs) - 1)%nat with (length rs) by lia.
  destruct (rank_floor (length rs) q (conj Hq0 Hq1)) as (_ & Hi & _ & _).
  cbv zeta. rewrite !nth_Fin by lia.
  destruct (Rle_dec _ _); simpl; do 2 f_equal; ring.
Qed.

Lemma Rsum_squares_nonneg (f : R -> R) (rs : list R) :
  0 <= Rsum (map (fun x => f x * f x) rs).
Proof.
  induction rs as [| r rs IH]; simpl; [lra |]. nra.
Qed.

(** [numpy.mean] on a non-empty finite series. *)
Lemma np_mean_Fin (rs : list R) : rs <> [] -> np_mean (map Fin rs) = Fin (mean rs).
Proof.
  intros Hne. unfold np_mean, Series_mean, mean.
  rewrite Series_dropna_Fin, fsum_Fin, length_map.
  apply fdiv_Fin. pose proof (INR_length_pos rs Hne). lra.
Qed.

(** [numpy.std] on a non-empty finite series. *)
Lemma np_std_Fin (rs : list R) :
  rs <> [] -> np_std (map Fin rs) = Fin (population_std rs).
Proof.
  intros Hne. unfold np_std, Series_std, population_std.
  rewrite Series_dropna_Fin, fsum_Fin, length_map.
  pose proof (INR_length_pos rs Hne) as Hpos.
  destruct (Nat.leb_spec (length rs) 0) as [Hle | _].
  { destruct rs; [congruence | simpl in Hle; lia]. }
  rewrite fdiv_Fin by lra. fold (mean rs).
  rewrite map_map. simpl.
  replace (map (fun x => Fin ((mean rs + - x) * (mean rs + - x))) rs)
    with (map Fin (map (fun x => (x - mean rs) * (x - mean rs)) rs)).
  2:{ rewrite map_map. apply map_ext. intros x. f_equal. lra. }
  rewrite fsum_Fin. simpl INR. rewrite Rminus_0_r.
  rewrite fdiv_Fin by lra. apply np_sqrt_Fin.
  apply Rmult_le_pos.
  - apply (Rsum_squares_nonneg (fun x => x - mean rs)).
  - left. apply Rinv_0_lt_compat. assumption.
Qed.

(* ================================================================== *)
(** * The interpolated quantile *)
(* ================================================================== *)

(** On the ascending arrangement the clipped upper index of the code and
    the plain next index of the definition give the same value: they
    differ only at the last rank, where the fraction is zero. *)
Lemma interpolate_next_index (ys : list R) (q : R) :
  0 <= q <= 1 ->
  let h := INR (length ys - 1) * q in
  let k := Z.to_nat (Zfloor h) in
  let t := h - IZR (Zfloor h) in
  interpolate ys q = nth k ys 0 + t * (nth (S k) ys 0 - nth k ys 0).
Proof.
  intros Hq h k t. unfold interpolate. fold h. fold k. fold t.
  destruct (rank_floor (length ys - 1)%nat q Hq) as (H0 & Hk & HINR & Ht).
  fold h in H0, Hk, HINR, Ht. fold k in Hk, HINR. fold t in Ht.
  destruct (Nat.eq_dec k (length ys - 1)%nat) as [Hlast | Hin].
  - assert (Ht0 : t = 0).
    { assert (Hh : h <= INR k).
      { rewrite Hlast. unfold h. pose proof (pos_INR (length ys - 1)). nra. }
      unfold t in *. lra. }
    rewrite Ht0. lra.
  - replace (Nat.min (S k) (length ys - 1)%nat) with (S k) by lia. lra.
Qed.

Lemma interpolate_spec (rs : list R) (p v : R) :
  0 <= p <= 1 ->
  linear_interpolation_quantile rs p v
  <-> v = interpolate (sort_ascending Rleb rs) p.
Proof.
  intros Hp. split.
  - intros (ys & k & t & Hperm & Hsorted & Hrank & Ht & ->).
    apply (sort_ascending_Rleb_unique rs) in Hsorted; [| exact Hperm].
    subst ys. rewrite interpolate_next_index by exact Hp. cbv zeta.
    assert (Hfloor : Zfloor (INR (length (sort_ascending Rleb rs) - 1) * p)
                     = Z.of_nat k).
    { apply Zfloor_eq. rewrite <- INR_IZR_INZ. lra. }
    rewrite Hfloor, Nat2Z.id, <- INR_IZR_INZ.
    replace (INR (length (sort_ascending Rleb rs) - 1) * p - INR k) with t by lra.
    reflexivity.
  - intros ->.
    destruct (rank_floor (length (sort_ascending Rleb rs) - 1)%nat p Hp)
      as (H0 & Hk & HINR & Ht).
    eexists (sort_ascending Rleb rs), _, _.
    split; [symmetry; apply sort_ascending_Permutation |].
    split; [apply sort_ascending_Rleb_Sorted |].
    split; [| split; [exact Ht |]].
    + rewrite HINR. lra.
    + apply interpolate_next_index. exact Hp.
Qed.

(** Every interpolated value lies between its two order statistics. *)
Lemma interpolate_between (ys : list R) (q : R) :
  ys <> [] -> Sorted Rle ys -> 0 <= q <= 1 ->
  let h := INR (length ys - 1) * q in
  let i := Z.to_nat (Zfloor h) in
  nth i ys 0 <= interpolate ys q <= nth (Nat.min (S i) (length ys - 1)%nat) ys 0.
Proof.
  intros Hne Hs Hq h i. unfold interpolate. fold h. fold i.
  destruct (rank_floor (length ys - 1)%nat q Hq) as (H0 & Hi & HINR & Ht).
  fold h in Ht, Hi. fold i in Hi.
  assert (Hlen : (0 < length ys)%nat) by (destruct ys; [congruence | simpl; lia]).
  assert (Hle : nth i ys 0 <= nth (Nat.min (S i) (length ys - 1)%nat) ys 0)
    by (apply Sorted_nth_le; [assumption | lia | lia]).
  split; nra.
Qed.

(** The interpolated quantile is non-decreasing in the fraction. *)
Lemma interpolate_monotone (ys : list R) (q1 q2 : R) :
  ys <> [] -> Sorted Rle ys -> 0 <= q1 -> q1 <= q2 -> q2 <= 1 ->
  interpolate ys q1 <= interpolate ys q2.
Proof.
  intros Hne Hs Hq1 Hq12 Hq2.
  assert (Hlen : (0 < length ys)%nat) by (destruct ys; [congruence | simpl; lia]).
  pose proof (interpolate_between ys q1 Hne Hs ltac:(lra)) as Hb1.
  pose proof (interpolate_between ys q2 Hne Hs ltac:(lra)) as Hb2.
  cbv zeta in Hb1, Hb2.
  destruct (rank_floor (length ys - 1)%nat q1 ltac:(lra)) as (H01 & Hi1 & HINR1 & Ht1).
  destruct (rank_floor (length ys - 1)%nat q2 ltac:(lra)) as (H02 & Hi2 & HINR2 & Ht2).
  cbv zeta in Hi1, Hi2, HINR1, HINR2, Ht1, Ht2.
  set (h1 := INR (length ys - 1) * q1) in *.
  set (h2 := INR (length ys - 1) * q2) in *.
  assert (Hh : h1 <= h2).
  { unfold h1, h2. pose proof (pos_INR (length ys - 1)). nra. }
  assert (Hfl : (Zfloor h1 <= Zfloor h2)%Z) by (apply Zfloor_le; exact Hh).
  destruct (Z.eq_dec (Zfloor h1) (Zfloor h2)) as [Heq | Hneq].
  - unfold interpolate. fold h1. fold h2. rewrite <- Heq.
    set (i := Z.to_nat (Zfloor h1)) in *.
    assert (Hle : nth i ys 0 <= nth (Nat.min (S i) (length ys - 1)%nat) ys 0)
      by (apply Sorted_nth_le; [assumption | lia | lia]).
    rewrite <- Heq in Ht2. nra.
  - set (i1 := Z.to_nat (Zfloor h1)) in *.
    set (i2 := Z.to_nat (Zfloor h2)) in *.
    assert (Hlt : (S i1 <= i2)%nat) by (unfold i1, i2; lia).
    assert (Hmid : nth (Nat.min (S i1) (length ys - 1)%nat) ys 0 <= nth i2 ys 0)
      by (apply Sorted_nth_le; [assumption | lia | lia]).
    lra.
Qed.

(* ================================================================== *)
(** * Reordering a series *)
(* ================================================================== *)

#[local] Instance fle_Transitive : Transitive fle.
Proof.
  intros a b c. unfold fle.
  destruct a, b, c; simpl; try done.
  rewrite !Rleb_le. apply Rle_trans.
Qed.

#[local] Instance fle_AntiSymm : AntiSymm (=) fle.
Proof.
  intros a b. unfold fle.
  destruct a, b; simpl; try done.
  rewrite !Rleb_le. intros H1 H2. f_equal. apply Rle_antisym; assumption.
Qed.

Lemma fleb_total (a b : float) :
  notna a = true -> notna b = true -> fleb a b = false -> fle b a.
Proof.
  unfold fle. destruct a, b; simpl; try done.
  intros _ _. apply Rleb_total.
Qed.

Lemma Series_dropna_notna (s : Series) :
  Forall (fun a => notna a = true) (Series_dropna s).
Proof. apply Forall_forall. intros a Ha. apply list_elem_of_filter in Ha. tauto. Qed.

Lemma sort_ascending_fleb_Sorted (s : Series) :
  Sorted fle (sort_ascending fleb (Series_dropna s)).
Proof.
  apply (sort_ascending_Sorted fleb fle (fun a => notna a = true)).
  - intros a b _ _ H. exact H.
  - apply fleb_total.
  - apply Series_dropna_notna.
Qed.

(** The sorted values of a series depend only on its multiset of values. *)
Lemma sorted_values_Permutation (s s' : Series) :
  s ≡ₚ s' ->
  sort_ascending fleb (Series_dropna s) = sort_ascending fleb (Series_dropna s').
Proof.
  intros Hp. apply (Sorted_unique fle); try apply sort_ascending_fleb_Sorted.
  rewrite !sort_ascending_Permutation. unfold Series_dropna. rewrite Hp.
  reflexivity.
Qed.

Lemma Series_quantile_Permutation (s s' : Series) (q : R) :
  s ≡ₚ s' -> Series_quantile s q = Series_quantile s' q.
Proof.
  intros Hp. unfold Series_quantile.
  rewrite (sorted_values_Permutation s s' Hp). reflexivity.
Qed.

(** The exact values of the mean and of the population deviation depend
    only on the multiset of returns.  (The doubles that [numpy.mean] and
    [numpy.std] compute are sums taken in the given order; see [IEEE].) *)
Lemma Rsum_Permutation (rs rs' : list R) : rs ≡ₚ rs' -> Rsum rs = Rsum rs'.
Proof.
  unfold Rsum.
  induction 1 as [| x l l' _ IH | x y l | l l' l'' _ IH1 _ IH2]; simpl; lra.
Qed.

Lemma mean_Permutation (rs rs' : list R) : rs ≡ₚ rs' -> mean rs = mean rs'.
Proof.
  intros Hp. unfold mean.
  rewrite (Rsum_Permutation _ _ Hp), (Permutation_length Hp). reflexivity.
Qed.

Lemma population_std_Permutation (rs rs' : list R) :
  rs ≡ₚ rs' -> population_std rs = population_std rs'.
Proof.
  intros Hp. unfold population_std.
  rewrite (mean_Permutation _ _ Hp), (Permutation_length Hp).
  do 2 f_equal. apply Rsum_Permutation, Permutation_map, Hp.
Qed.

(* ================================================================== *)
(** * The two VaR calculators *)
(* ================================================================== *)

Lemma calculate_historical_var_None (s : MarketRiskAnalyzer) :
  data s = None -> calculate_historical_var s = (Return None, s).
Proof. intros H. unfold calculate_historical_var. rewrite H. reflexivity. Qed.

Lemma calculate_historical_var_finite
    (s : MarketRiskAnalyzer) (df : DataFrame) (rs : list R) :
  data s = Some df -> column_Returns df = map Fin rs -> rs <> [] ->
  0 <= 1 - confidence_level s <= 1 ->
  let v := interpolate (sort_ascending Rleb rs) (1 - confidence_level s) in
  calculate_historical_var s
  = (Return (Some (Fin v)), set_result s "Historical VaR" (Fin v)).
Proof.
  intros Hd Hr Hne Hq v. unfold calculate_historical_var.
  rewrite Hd, Hr, Series_quantile_Fin by assumption. reflexivity.
Qed.

(** With data loaded but no return in it, the quantile of the empty
    series is NaN, and that value is returned and recorded. *)
Lemma calculate_historical_var_empty (s : MarketRiskAnalyzer) (df : DataFrame) :
  data s = Some df -> column_Returns df = [] ->
  0 <= 1 - confidence_level s <= 1 ->
  calculate_historical_var s
  = (Return (Some NaN), set_result s "Historical VaR" NaN).
Proof.
  intros Hd Hr [Hq0 Hq1]. unfold calculate_historical_var, Series_quantile.
  rewrite Hd, Hr.
  destruct (Rle_dec 0 (1 - confidence_level s)); [| contradiction].
  destruct (Rle_dec (1 - confidence_level s) 1); [| contradiction].
  reflexivity.
Qed.

(** Whatever the outcome, the historical calculator changes nothing but
    the entry under its own key. *)
Lemma calculate_historical_var_frame (s : MarketRiskAnalyzer) :
  let s' := snd (calculate_historical_var s) in
  file_path s' = file_path s /\ confidence_level s' = confidence_level s /\
  data s' = data s /\
  forall key : string, key <> "Historical VaR" ->
    results s' !! key = results s !! key.
Proof.
  unfold calculate_historical_var.
  destruct (data s) as [df |] eqn:Hd; simpl; [| done].
  destruct (Series_quantile _ _) as [v | e]; simpl; [| done].
  do 3 (split; [done |]).
  intros key Hkey. apply lookup_insert_ne. congruence.
Qed.

Lemma stats_norm_ppf_open (p : R) :
  0 < p < 1 -> stats_norm_ppf p = Fin (norm_ppf p).
Proof.
  intros [H0 H1]. unfold stats_norm_ppf.
  rewrite (Rsign_pos p), (Rsign_neg (p - 1)) by lra. reflexivity.
Qed.

Lemma calculate_parametric_var_None (s : MarketRiskAnalyzer) :
  data s = None -> calculate_parametric_var s = (Return None, s).
Proof. intros H. unfold calculate_parametric_var. rewrite H. reflexivity. Qed.

Lemma calculate_parametric_var_finite
    (s : MarketRiskAnalyzer) (df : DataFrame) (rs : list R) :
  data s = Some df -> column_Returns df = map Fin rs -> rs <> [] ->
  0 < confidence_level s < 1 ->
  let v := mean rs + norm_ppf (1 - confidence_level s) * population_std rs in
  calculate_parametric_var s
  = (Return (Some (Fin v)), set_result s "Parametric VaR" (Fin v)).
Proof.
  intros Hd Hr Hne Hc v. unfold calculate_parametric_var.
  rewrite Hd, Hr, np_mean_Fin, np_std_Fin by assumption.
  rewrite stats_norm_ppf_open by lra. reflexivity.
Qed.

Lemma calculate_parametric_var_frame (s : MarketRiskAnalyzer) :
  let s' := snd (calculate_parametric_var s) in
  file_path s' = file_path s /\ confidence_level s' = confidence_level s /\
  data s' = data s /\
  forall key : string, key <> "Parametric VaR" ->
    results s' !! key = results s !! key.
Proof.
  unfold calculate_parametric_var.
  destruct (data s) as [df |] eqn:Hd; simpl; [| done].
  do 3 (split; [done |]).
intros key Hkey. apply lookup_insert_ne. congruence.
Qed.

(** C1.  On a non-empty series of finite returns and a confidence level
    [c] in (0,1), [calculate_parametric_var] returns [mu + z * sigma]
    with [mu] the arithmetic mean, [sigma] the population standard
    deviation (divisor N) and [z] the normal quantile at [1 - c]; at
    [c = 1/2] the result is the mean. *)
Theorem calculate_parametric_var_formula
    (s : MarketRiskAnalyzer) (df : DataFrame) (rs : list R) :
  data s = Some df -> column_Returns df = map Fin rs -> rs <> [] ->
  0 < confidence_level s < 1 ->
  fst (calculate_parametric_var s)
  = Return (Some (Fin (mean rs
                       + norm_ppf (1 - confidence_level s) * population_std rs)))
  /\ (confidence_level s = 1 / 2 ->
      fst (calculate_parametric_var s) = Return (Some (Fin (mean rs)))).
Proof.
  intros Hd Hr Hne Hc.
  rewrite (calculate_parametric_var_finite s df rs) by assumption.
  split; [reflexivity |].
  intros Hhalf. simpl. do 3 f_equal.
  replace (1 - confidence_level s) with (1 / 2) by lra.
  rewrite norm_ppf_median. lra.
Qed.

(** C2.  On a non-empty series of finite returns and a confidence level
    [c] in (0,1), [calculate_historical_var] returns the
    linear-interpolation quantile of the returns at fraction [1 - c],
    and that quantile is the only one. *)
Theorem calculate_historical_var_quantile
    (s : MarketRiskAnalyzer) (df : DataFrame) (rs : list R) :
  data s = Some df -> column_Returns df = map Fin rs -> rs <> [] ->
  0 < confidence_level s < 1 ->
  exists v : R,
    fst (calculate_historical_var s) = Return (Some (Fin v)) /\
    linear_interpolation_quantile rs (1 - confidence_level s) v /\
    forall v' : R,
      linear_interpolation_quantile rs (1 - confidence_level s) v' -> v' = v.
Proof.
  intros Hd Hr Hne Hc.
  assert (Hq : 0 <= 1 - confidence_level s <= 1) by lra.
  exists (interpolate (sort_ascending Rleb rs) (1 - confidence_level s)).
  rewrite (calculate_historical_var_finite s df rs) by assumption.
  split; [reflexivity |]. split.
  - apply interpolate_spec; [exact Hq | reflexivity].
  - intros v' Hv'. apply interpolate_spec in Hv'; assumption.
Qed.

(** C6.  On a fixed non-empty series of finite returns, raising the
    confidence level within (0,1) never raises the Historical VaR. *)
Theorem historical_var_monotone
    (s1 s2 : MarketRiskAnalyzer) (df : DataFrame) (rs : list R) :
  data s1 = Some df -> data s2 = Some df ->
  column_Returns df = map Fin rs -> rs <> [] ->
  0 < confidence_level s1 -> confidence_level s1 < confidence_level s2 ->
  confidence_level s2 < 1 ->
  exists v1 v2 : R,
    fst (calculate_historical_var s1) = Return (Some (Fin v1)) /\
    fst (calculate_historical_var s2) = Return (Some (Fin v2)) /\
    v2 <= v1.
Proof.
  intros Hd1 Hd2 Hr Hne Hc1 Hc12 Hc2.
  eexists _, _.
  rewrite (calculate_historical_var_finite s1 df rs) by (try assumption; lra).
  rewrite (calculate_historical_var_finite s2 df rs) by (try assumption; lra).
  split; [reflexivity |]. split; [reflexivity |].
  apply interpolate_monotone; try lra.
  - intros Hnil. apply Hne. apply Permutation_nil.
    rewrite <- Hnil. apply sort_ascending_Permutation.
  - apply sort_ascending_Rleb_Sorted.
Qed.

(** C9 (as amended).  The historical estimate depends only on the multiset
    of returns: two analyzers with the same confidence level whose return
    columns are reorderings of each other give the same result, value or
    exception.  (The values are sorted before anything is computed from
    them.  The parametric estimate adds the returns in their order, and
    the sum of doubles depends on that order.) *)
Theorem historical_var_permutation_invariant
    (s s' : MarketRiskAnalyzer) (df df' : DataFrame) :
  data s = Some df -> data s' = Some df' ->
  confidence_level s = confidence_level s' ->
  column_Returns df ≡ₚ column_Returns df' ->
  fst (calculate_historical_var s) = fst (calculate_historical_var s').
Proof.
  intros Hd Hd' Hc Hp.
  unfold calculate_historical_var. rewrite Hd, Hd', Hc.
  rewrite (Series_quantile_Permutation _ _ _ Hp).
  destruct (Series_quantile _ _); reflexivity.
Qed.

(** C4 (as amended).  When loading failed and [data] is [None], both
    calculators return [None] and leave the analyzer as it was.  When
    data is loaded but holds no return, and the confidence level lies in
    [0,1], [calculate_historical_var] returns NaN (not [None]) and
    records it under its key. *)
Theorem calculators_without_returns (s : MarketRiskAnalyzer) :
  (data s = None ->
     calculate_historical_var s = (Return None, s) /\
     calculate_parametric_var s = (Return None, s)) /\
  (forall df : DataFrame,
     data s = Some df -> column_Returns df = [] ->
     0 <= 1 - confidence_level s <= 1 ->
     calculate_historical_var s
     = (Return (Some NaN), set_result s "Historical VaR" NaN)).
Proof.
  split.
  - intros Hd. split.
    + apply calculate_historical_var_None, Hd.
    + apply calculate_parametric_var_None, Hd.
  - apply calculate_historical_var_empty.
Qed.

(** C10.  Each calculator writes only the entry under its own key: the
    file path, the confidence level, the loaded data and every other
    entry of the results mapping, the other method's included, are as
    before; the written entry holds the returned value. *)
Theorem calculators_frame (s : MarketRiskAnalyzer) (df : DataFrame) :
  data s = Some df ->
  let sh := snd (calculate_historical_var s) in
  let sp := snd (calculate_parametric_var s) in
  (file_path sh = file_path s /\ confidence_level sh = confidence_level s /\
   data sh = Some df /\
   (forall key : string, key <> "Historical VaR" ->
      results sh !! key = results s !! key) /\
   results sh !! "Parametric VaR" = results s !! "Parametric VaR" /\
   (forall v : float, fst (calculate_historical_var s) = Return (Some v) ->
      results sh = <["Historical VaR" := v]> (results s))) /\
  (file_path sp = file_path s /\ confidence_level sp = confidence_level s /\
   data sp = Some df /\
   (forall key : string, key <> "Parametric VaR" ->
      results sp !! key = results s !! key) /\
   results sp !! "Historical VaR" = results s !! "Historical VaR" /\
   (forall v : float, fst (calculate_parametric_var s) = Return (Some v) ->
      results sp = <["Parametric VaR" := v]> (results s))).
Proof.
  intros Hd sh sp.
  destruct (calculate_historical_var_frame s) as (Hf & Hc & Hdata & Hres).
  destruct (calculate_parametric_var_frame s) as (Hf' & Hc' & Hdata' & Hres').
  fold sh in Hf, Hc, Hdata, Hres. fold sp in Hf', Hc', Hdata', Hres'.
  split; repeat split; try congruence.
  - exact Hres.
  - apply Hres. discriminate.
  - subst sh. unfold calculate_historical_var. rewrite Hd.
    destruct (Series_quantile _ _) as [w | e]; simpl; [| discriminate].
    intros v [= <-]. reflexivity.
  - exact Hres'.
  - apply Hres'. discriminate.
  - subst sp. unfold calculate_parametric_var. rewrite Hd. simpl.
    intros v [= <-]. reflexivity.
Qed.


(* ================================================================== *)
(** * The report *)
(* ================================================================== *)

(** C5.  [generate_risk_report] never raises for a missing result key.
    With data loaded it completes, and an absent ['Historical VaR'] or
    ['Parametric VaR'] entry is printed as the default zero, also in the
    interpretive sentence with the sign-flipped parametric value. *)
Theorem generate_risk_report_missing_keys (s : MarketRiskAnalyzer) :
  (forall key : string, snd (generate_risk_report s) <> Raise (KeyError key)) /\
  (forall df : DataFrame, data s = Some df ->
     snd (generate_risk_report s) = Return tt /\
     (results s !! "Historical VaR" = None ->
        [Text "1. Historical VaR:   "; Percent 4 (Fin 0)]
          ∈ fst (generate_risk_report s)) /\
     (results s !! "Parametric VaR" = None ->
        [Text "2. Parametric VaR:   "; Percent 4 (Fin 0)]
          ∈ fst (generate_risk_report s) /\
        [Text "will not exceed "; Percent 2 (Fin 0); Text " (Parametric model)."]
          ∈ fst (generate_risk_report s))).
Proof.
  unfold generate_risk_report. split.
  - intros key. destruct (data s); simpl; discriminate.
  - intros df ->. simpl. split; [reflexivity |].
    unfold report_body, dict_get. split.
    + intros ->. simpl. set_solver.
    + intros ->. simpl. replace (-1 * 0) with 0 by lra. set_solver.
Qed.

(* ================================================================== *)
(** * Loading: returns and the dropped rows *)
(* ================================================================== *)

Lemma zip_with_take_length {A B C : Type} (f : A -> B -> C)
    (l : list A) (k : list B) :
  zip_with f l (take (length l) k) = zip_with f l k.
Proof.
  revert k. induction l as [| x l IH]; intros [| y k]; simpl; try reflexivity.
  rewrite IH. reflexivity.
Qed.

Lemma zip_with_log_ratio (cs ps : list R) :
  Forall (fun x => 0 < x) cs -> Forall (fun x => 0 < x) ps ->
  zip_with (fun c p => np_log (fdiv c p)) (map Fin cs) (map Fin ps)
  = map Fin (zip_with (fun c p => ln (c / p)) cs ps).
Proof.
  intros Hcs. revert ps. induction Hcs as [| c cs Hc Hcs IH]; intros ps Hps.
  - reflexivity.
  - destruct Hps as [| p ps Hp Hps]; [reflexivity |].
    cbn [map zip_with]. rewrite np_log_ratio by assumption.
    rewrite IH by assumption. reflexivity.
Qed.

(** On strictly positive prices the attached column is NaN in the first
    row and the log return of each adjacent pair below it. *)
Lemma attach_returns_positive (r0 : SheetRow) (rows : list SheetRow)
    (p0 : R) (ps : list R) :
  column_Close (r0 :: rows) = map Fin (p0 :: ps) ->
  Forall (fun x => 0 < x) (p0 :: ps) ->
  attach_returns (r0 :: rows)
  = mkRow r0 NaN
    :: zip_with mkRow rows
         (map Fin (zip_with (fun c p => ln (c / p)) ps (p0 :: ps))).
Proof.
  intros Hclose Hpos. unfold attach_returns. rewrite Hclose.
  unfold Series_shift1. cbn [map length take zip_with]. rewrite length_map.
  replace (take (length ps) (Fin p0 :: map Fin ps))
    with (take (length (map Fin ps)) (map Fin (p0 :: ps)))
    by (rewrite length_map; reflexivity).
  rewrite zip_with_take_length.
  rewrite zip_with_log_ratio.
  - reflexivity.
  - apply Forall_cons in Hpos. tauto.
  - exact Hpos.
Qed.

Lemma attach_returns_nil : attach_returns [] = [].
Proof. reflexivity. Qed.

(** The rows under the attached column are the rows given. *)
Lemma attach_returns_cells (rows : list SheetRow) :
  map cells (attach_returns rows) = rows.
Proof.
  unfold attach_returns, Series_shift1, column_Close.
  rewrite zip_with_take_length.
  assert (H : forall (f : float -> float -> float) (k : list float),
             (length rows <= length k)%nat ->
             map cells (zip_with mkRow rows
                          (zip_with f (map Close rows) k)) = rows).
  { intros f. induction rows as [| r rows IH]; intros k Hk; [reflexivity |].
    destruct k as [| y k]; simpl in Hk; [lia |].
    cbn [map zip_with]. simpl cells. f_equal. apply IH. lia. }
  apply H. cbn [length]. rewrite length_map. lia.
Qed.

(** [dropna] keeps every row whose cells are all present. *)
Lemma DataFrame_dropna_all (df : DataFrame) :
  Forall (fun r => row_notna r = true) df -> DataFrame_dropna df = df.
Proof.
  unfold DataFrame_dropna. induction 1 as [| r df Hr _ IH]; [reflexivity |].
  rewrite filter_cons_True by exact Hr. rewrite IH. reflexivity.
Qed.

Lemma DataFrame_dropna_cons_NaN (r0 : SheetRow) (df : DataFrame) :
  DataFrame_dropna (mkRow r0 NaN :: df) = DataFrame_dropna df.
Proof.
  unfold DataFrame_dropna. apply filter_cons_False.
  unfold row_notna. simpl. rewrite andb_false_r. discriminate.
Qed.

Lemma zip_with_mkRow_notna (rows : list SheetRow) (rets : list R) :
  Forall (fun r => notna (Close r) = true) rows ->
  Forall (fun r => Forall (fun a => notna a = true) (Others r)) rows ->
  Forall (fun r => row_notna r = true) (zip_with mkRow rows (map Fin rets)).
Proof.
  intros Hc. revert rets. induction Hc as [| r rows Hr Hc IH]; intros rets Ho.
  - constructor.
  - destruct rets as [| x rets]; [constructor |].
    apply Forall_cons in Ho as [Hor Ho]. cbn [map zip_with]. constructor.
    + unfold row_notna. simpl. rewrite Hr. simpl.
      rewrite andb_true_r. apply forallb_forall. intros a Ha.
      rewrite Forall_forall in Hor. apply Hor. apply list_elem_of_In, Ha.
    + apply IH. exact Ho.
Qed.

Lemma zip_with_mkRow_cells (rows : list SheetRow) (rets : Series) :
  length rets = length rows -> map cells (zip_with mkRow rows rets) = rows.
Proof.
  revert rets. induction rows as [| r rows IH]; intros [| x rets] H;
    simpl in *; try lia; [reflexivity |].
  rewrite IH by lia. reflexivity.
Qed.

Lemma zip_with_mkRow_Returns (rows : list SheetRow) (rets : Series) :
  length rets = length rows -> column_Returns (zip_with mkRow rows rets) = rets.
Proof.
  unfold column_Returns.
  revert rets. induction rows as [| r rows IH]; intros [| x rets] H;
    simpl in *; try lia; [reflexivity |].
  rewrite IH by lia. reflexivity.
Qed.

Lemma log_returns_nth (p0 : R) (ps : list R) (t : nat) :
  (t < length ps)%nat ->
  nth t (zip_with (fun c p => ln (c / p)) ps (p0 :: ps)) 0
  = ln (nth (S t) (p0 :: ps) 1 / nth t (p0 :: ps) 1).
Proof.
  revert p0 t. induction ps as [| p ps IH]; intros p0 t Ht; simpl in Ht; [lia |].
  destruct t as [| t]; [reflexivity |].
  cbn [zip_with]. apply (IH p t). lia.
Qed.

(** Strictly positive closing prices, read as a list of reals. *)
Lemma positive_Close_prices (rows : list SheetRow) :
  Forall (fun r => exists p, Close r = Fin p /\ 0 < p) rows ->
  exists ps : list R,
    column_Close rows = map Fin ps /\ Forall (fun x => 0 < x) ps.
Proof.
  induction 1 as [| r rows (p & Hp & Hpos) _ (ps & Hps & Hall)].
  - exists []. split; [reflexivity | constructor].
  - exists (p :: ps). split; [| constructor; assumption].
    unfold column_Close in *. cbn [map]. rewrite Hp, Hps. reflexivity.
Qed.

(** Order and membership survive the removal of rows. *)
Lemma sublist_map {A B : Type} (f : A -> B) (l1 l2 : list A) :
  sublist l1 l2 -> sublist (map f l1) (map f l2).
Proof. induction 1; simpl; constructor; assumption. Qed.

Lemma Sorted_sublist {A : Type} (le : relation A) `{!Transitive le}
    (l1 l2 : list A) :
  sublist l1 l2 -> Sorted le l2 -> Sorted le l1.
Proof.
  intros Hsub Hs. apply Sorted_StronglySorted in Hs; [| assumption].
  apply StronglySorted_Sorted.
  induction Hsub as [| x l1 l2 Hsub IH | x l1 l2 Hsub IH].
  - constructor.
  - apply StronglySorted_inv in Hs as [Hs Hall]. constructor; [apply IH, Hs |].
    rewrite Forall_forall in *. intros y Hy. apply Hall.
    eapply elem_of_sublist; eassumption.
  - apply StronglySorted_inv in Hs as [Hs _]. apply IH, Hs.
Qed.

#[local] Instance Date_le_Transitive : Transitive Date_le.
Proof. intros a b c. unfold Date_le. lia. Qed.

(** ** Constant prices *)

Lemma Rsum_zeros (rs : list R) : Forall (fun x => x = 0) rs -> Rsum rs = 0.
Proof. induction 1 as [| x rs -> _ IH]; simpl; [reflexivity |]. rewrite IH. lra. Qed.

Lemma nth_zeros (rs : list R) (i : nat) : Forall (fun x => x = 0) rs -> nth i rs 0 = 0.
Proof.
  intros H. revert i. induction H as [| x rs -> _ IH]; intros [| i]; simpl; auto.
Qed.

Lemma interpolate_zeros (ys : list R) (q : R) :
  Forall (fun x => x = 0) ys -> interpolate ys q = 0.
Proof. intros H. unfold interpolate. rewrite !nth_zeros by exact H. lra. Qed.

Lemma mean_zeros (rs : list R) : Forall (fun x => x = 0) rs -> mean rs = 0.
Proof. intros H. unfold mean. rewrite Rsum_zeros by exact H. lra. Qed.

Lemma population_std_zeros (rs : list R) :
  Forall (fun x => x = 0) rs -> population_std rs = 0.
Proof.
  intros H. unfold population_std. rewrite mean_zeros by exact H.
  rewrite Rsum_zeros.
  - replace (0 / INR (length rs)) with 0 by lra. apply sqrt_0.
  - rewrite Forall_forall in *. intros y Hy.
    apply list_elem_of_In, in_map_iff in Hy as (x & <- & Hx).
    rewrite (H x) by (apply list_elem_of_In, Hx). lra.
Qed.

Lemma column_Returns_zeros (df : DataFrame) :
  Forall (fun r => Returns r = Fin 0) df ->
  column_Returns df = map Fin (repeat 0 (length df)).
Proof.
  unfold column_Returns. induction 1 as [| r df Hr _ IH]; [reflexivity |].
  simpl. rewrite Hr, IH. reflexivity.
Qed.

Lemma zip_with_log_constant (p : R) (cs ps : list R) :
  0 < p -> Forall (fun x => x = p) cs -> Forall (fun x => x = p) ps ->
  Forall (fun x => x = 0) (zip_with (fun c q => ln (c / q)) cs ps).
Proof.
  intros Hp Hcs. revert ps. induction Hcs as [| c cs -> _ IH]; intros ps Hps.
  - constructor.
  - destruct Hps as [| q ps -> Hps]; [constructor |].
    cbn [zip_with]. constructor; [| apply IH, Hps].
    replace (p / p) with 1 by (field; lra). apply ln_1.
Qed.

Lemma constant_Close_prices (rows : list SheetRow) (p : R) (ps : list R) :
  Forall (fun r => Close r = Fin p) rows -> column_Close rows = map Fin ps ->
  Forall (fun x => x = p) ps.
Proof.
  unfold column_Close. intros Hall. revert ps.
  induction Hall as [| r rows Hr _ IH]; intros [| q ps] Hps;
    try discriminate; [constructor |].
  cbn [map] in Hps. injection Hps as Hq Hps.
  constructor; [congruence | apply IH, Hps].
Qed.

Lemma zip_with_mkRow_zeros (rows : list SheetRow) (zs : list R) :
  Forall (fun x => x = 0) zs ->
  Forall (fun r => Returns r = NaN \/ Returns r = Fin 0)
    (zip_with mkRow rows (map Fin zs)).
Proof.
  intros Hz. revert rows. induction Hz as [| z zs -> _ IH]; intros [| r rows];
    cbn [map zip_with]; constructor; [right; reflexivity | apply IH].
Qed.

(** At a constant positive price every attached return is NaN (first row)
    or zero. *)
Lemma attach_returns_constant (rows : list SheetRow) (p : R) :
  0 < p -> Forall (fun r => Close r = Fin p) rows ->
  Forall (fun r => Returns r = NaN \/ Returns r = Fin 0) (attach_returns rows).
Proof.
  intros Hp Hall. destruct rows as [| r0 rows]; [constructor |].
  assert (Hpos : Forall (fun r => exists q, Close r = Fin q /\ 0 < q) (r0 :: rows)).
  { eapply Forall_impl; [exact Hall |]. intros r Hr. exists p. split; assumption. }
  destruct (positive_Close_prices _ Hpos) as (ps & Hps & Hpspos).
  destruct ps as [| p0 ps]; [discriminate |].
  pose proof (constant_Close_prices _ p _ Hall Hps) as Hconst.
  rewrite (attach_returns_positive r0 rows p0 ps Hps Hpspos).
  constructor; [left; reflexivity |].
  apply zip_with_mkRow_zeros.
  apply (zip_with_log_constant p); [exact Hp | | exact Hconst].
  apply Forall_cons in Hconst. tauto.
Qed.

(** After [dropna] the returns at a constant price are all zero. *)
Lemma dropna_returns_constant (rows : list SheetRow) (p : R) :
  0 < p -> Forall (fun r => Close r = Fin p) rows ->
  Forall (fun r => Returns r = Fin 0) (DataFrame_dropna (attach_returns rows)).
Proof.
  intros Hp Hall. pose proof (attach_returns_constant rows p Hp Hall) as H.
  rewrite Forall_forall in *. intros r Hr.
  unfold DataFrame_dropna in Hr. apply list_elem_of_filter in Hr as [Hna Hr].
  destruct (H r Hr) as [Hnan | Hzero]; [| exact Hzero].
  unfold row_notna in Hna. rewrite Hnan in Hna. simpl in Hna.
  rewrite andb_false_r in Hna. discriminate.
Qed.

(** ** Positive prices, no missing cell *)

(** On rows with strictly positive Close prices and no missing cell in
    the other columns, [dropna] removes the first row and nothing else,
    and the rows left carry the log returns of adjacent prices. *)
Lemma dropna_attach_returns_positive (sorted : list SheetRow) :
  Forall (fun r => exists p, Close r = Fin p /\ 0 < p) sorted ->
  Forall (fun r => Forall (fun a => notna a = true) (Others r)) sorted ->
  exists prices : list R,
    column_Close sorted = map Fin prices /\
    map cells (DataFrame_dropna (attach_returns sorted)) = tail sorted /\
    length (column_Returns (DataFrame_dropna (attach_returns sorted)))
    = (length sorted - 1)%nat /\
    forall t : nat, (t < length sorted - 1)%nat ->
      nth t (column_Returns (DataFrame_dropna (attach_returns sorted))) NaN
      = Fin (ln (nth (S t) prices 1 / nth t prices 1)).
Proof.
  intros Hclose Hothers.
  destruct (positive_Close_prices _ Hclose) as (prices & Hprices & Hpos).
  exists prices. split; [exact Hprices |].
  destruct sorted as [| r0 rows].
  { rewrite attach_returns_nil. repeat split. simpl. intros t Ht. lia. }
  destruct prices as [| p0 ps]; [discriminate |].
  set (lr := zip_with (fun c p => ln (c / p)) ps (p0 :: ps)).
  assert (Hps : length ps = length rows).
  { apply (f_equal length) in Hprices. unfold column_Close in Hprices.
    rewrite !length_map in Hprices. simpl in Hprices. lia. }
  assert (Hlr : length lr = length rows).
  { unfold lr. rewrite length_zip_with. simpl. lia. }
  rewrite (attach_returns_positive r0 rows p0 ps Hprices Hpos).
  rewrite DataFrame_dropna_cons_NaN, DataFrame_dropna_all.
  2:{ apply Forall_cons in Hclose as [_ Hclose].
      apply Forall_cons in Hothers as [_ Hothers].
      apply zip_with_mkRow_notna; [| exact Hothers].
      eapply Forall_impl; [exact Hclose |].
      intros r (p & -> & _). reflexivity. }
  fold lr. cbn [length tail].
  replace (S (length rows) - 1)%nat with (length rows) by lia.
  split; [apply zip_with_mkRow_cells; rewrite length_map; lia |].
  rewrite zip_with_mkRow_Returns by (rewrite length_map; lia).
  split; [rewrite length_map; exact Hlr |].
  intros t Ht. rewrite nth_Fin by lia.
  unfold lr. rewrite log_returns_nth by lia. reflexivity.
Qed.

(* ================================================================== *)
(** * Loading *)
(* ================================================================== *)

Section Loader.

Variable read_excel : string -> option (list SheetRow).
Variable sort_values : list SheetRow -> list SheetRow.

(** What [sort_values] promises for every [kind]: the same rows, in
    ascending order of date.  Only ['mergesort'] and ['stable'] promise
    more, and the call asks for neither. *)
Hypothesis sort_values_Permutation : forall l, sort_values l ≡ₚ l.
Hypothesis sort_values_Sorted : forall l, Sorted Date_le (sort_values l).

Lemma load_data_Some (s : MarketRiskAnalyzer) (sheet : list SheetRow) :
  read_excel (file_path s) = Some sheet ->
  fst (load_data read_excel sort_values s)
  = set_data s (DataFrame_dropna (attach_returns (sort_values sheet))).
Proof. intros H. unfold load_data. rewrite H. reflexivity. Qed.

Lemma sort_values_Forall (P : SheetRow -> Prop) (sheet : list SheetRow) :
  Forall P sheet -> Forall P (sort_values sheet).
Proof.
  intros H. rewrite Forall_forall in *. intros r Hr. apply H.
  rewrite <- (sort_values_Permutation sheet). exact Hr.
Qed.

(** C3 (as amended).  For a table of N+1 rows with strictly positive
    Close prices and no missing cell in any other column, [load_data]
    leaves exactly N rows: the date-sorted rows without the first, each
    carrying the log return [ln (close[t] / close[t-1])] of the
    date-sorted prices. *)
Theorem load_data_log_returns
    (s : MarketRiskAnalyzer) (sheet : list SheetRow) (N : nat) :
  read_excel (file_path s) = Some sheet ->
  length sheet = S N ->
  Forall (fun r => exists p, Close r = Fin p /\ 0 < p) sheet ->
  Forall (fun r => Forall (fun a => notna a = true) (Others r)) sheet ->
  exists (df : DataFrame) (prices : list R),
    data (fst (load_data read_excel sort_values s)) = Some df /\
    sort_values sheet ≡ₚ sheet /\ Sorted Date_le (sort_values sheet) /\
    column_Close (sort_values sheet) = map Fin prices /\
    map cells df = tail (sort_values sheet) /\
    length (column_Returns df) = N /\
    forall t : nat, (t < N)%nat ->
      nth t (column_Returns df) NaN
      = Fin (ln (nth (S t) prices 1 / nth t prices 1)).
Proof.
  intros Hread Hlen Hclose Hothers.
  rewrite (load_data_Some s sheet Hread). simpl data.
  assert (Hlen' : (length (sort_values sheet) - 1)%nat = N).
  { rewrite (Permutation_length (sort_values_Permutation sheet)). lia. }
  destruct (dropna_attach_returns_positive (sort_values sheet))
    as (prices & Hprices & Hcells & Hcount & Hnth).
  { apply sort_values_Forall, Hclose. }
  { apply sort_values_Forall, Hothers. }
  rewrite Hlen' in Hcount, Hnth.
  exists (DataFrame_dropna (attach_returns (sort_values sheet))), prices.
  repeat split; auto.
Qed.

(** C7 (as amended).  At a constant positive price the loaded return
    series is all-zero, and whenever it is not empty both Historical
    and Parametric VaR are 0 for a confidence level in (0,1).  It is not
    empty when the table has at least two rows and no missing cell. *)
Theorem constant_prices_zero_var
    (s : MarketRiskAnalyzer) (sheet : list SheetRow) (p : R) :
  read_excel (file_path s) = Some sheet ->
  0 < p -> Forall (fun r => Close r = Fin p) sheet ->
  0 < confidence_level s < 1 ->
  let s' := fst (load_data read_excel sort_values s) in
  exists df : DataFrame,
    data s' = Some df /\
    Forall (fun x => x = Fin 0) (column_Returns df) /\
    (df <> [] ->
       fst (calculate_historical_var s') = Return (Some (Fin 0)) /\
       fst (calculate_parametric_var s') = Return (Some (Fin 0))) /\
    ((2 <= length sheet)%nat ->
     Forall (fun r => Forall (fun a => notna a = true) (Others r)) sheet ->
     df <> []).
Proof.
  intros Hread Hp Hclose Hc s'.
  assert (Hclose' : Forall (fun r => Close r = Fin p) (sort_values sheet))
    by (apply sort_values_Forall, Hclose).
  pose proof (dropna_returns_constant _ p Hp Hclose') as Hzero.
  set (df := DataFrame_dropna (attach_returns (sort_values sheet))) in *.
  assert (Hs' : s' = set_data s df) by (apply load_data_Some, Hread).
  assert (Hcol := column_Returns_zeros df Hzero).
  assert (Hz : Forall (fun x => x = 0) (repeat 0 (length df))).
  { apply Forall_forall. intros x Hx.
    apply list_elem_of_In, repeat_spec in Hx. exact Hx. }
  exists df. split; [rewrite Hs'; reflexivity |].
  split.
  { rewrite Hcol. apply Forall_forall. intros x Hx.
    apply list_elem_of_In, in_map_iff in Hx as (z & <- & Hin).
    apply repeat_spec in Hin. rewrite Hin. reflexivity. }
  split.
  - intros Hne.
    assert (Hrs : repeat 0 (length df) <> [])
      by (destruct df; [congruence | discriminate]).
    assert (Hd : data s' = Some df) by (rewrite Hs'; reflexivity).
    assert (Hc' : 0 < confidence_level s' < 1) by (rewrite Hs'; exact Hc).
    split.
    + rewrite (calculate_historical_var_finite s' df (repeat 0 (length df)))
        by (try assumption; lra).
      simpl. rewrite interpolate_zeros; [reflexivity |].
      rewrite sort_ascending_Permutation. exact Hz.
    + rewrite (calculate_parametric_var_finite s' df (repeat 0 (length df)))
        by assumption.
      simpl. rewrite mean_zeros, population_std_zeros by exact Hz.
      do 3 f_equal. lra.
  - intros Hlen Hothers Hnil.
    destruct (dropna_attach_returns_positive (sort_values sheet))
      as (prices & _ & Hcells & _).
    { apply sort_values_Forall. eapply Forall_impl; [exact Hclose |].
      intros r Hr. exists p. split; [exact Hr | exact Hp]. }
    { apply sort_values_Forall, Hothers. }
    fold df in Hcells. rewrite Hnil in Hcells.
    pose proof (Permutation_length (sort_values_Permutation sheet)) as Hl.
    destruct (sort_values sheet) as [| r0 [| r1 rows]]; simpl in *;
      try lia; discriminate.
Qed.

(** Whatever sort meets that contract, [load_data] leaves the rows in
    ascending order of date, and the rows left are rows of the table. *)
Lemma load_data_keeps_sort_order
    (s : MarketRiskAnalyzer) (sheet : list SheetRow) :
  read_excel (file_path s) = Some sheet ->
  exists df : DataFrame,
    data (fst (load_data read_excel sort_values s)) = Some df /\
    Sorted Date_le (map cells df) /\
    map cells df ⊆+ sheet.
Proof.
  intros Hread. rewrite (load_data_Some s sheet Hread).
  eexists. split; [reflexivity |].
  assert (Hsub : sublist
                   (map cells (DataFrame_dropna (attach_returns (sort_values sheet))))
                   (sort_values sheet)).
  { rewrite <- (attach_returns_cells (sort_values sheet)) at 2.
    apply sublist_map, sublist_filter. }
  split.
  - eapply Sorted_sublist; [apply Date_le_Transitive | exact Hsub |].
    apply sort_values_Sorted.
  - transitivity (sort_values sheet).
    + apply sublist_submseteq, Hsub.
    + apply Permutation_submseteq, sort_values_Permutation.
Qed.

End Loader.

(* ================================================================== *)
(** * The stable row sort *)
(* ================================================================== *)

Lemma sort_by_date_stable_Permutation (l : list SheetRow) :
  sort_by_date_stable l ≡ₚ l.
Proof. apply sort_ascending_Permutation. Qed.

Lemma sort_by_date_stable_Sorted (l : list SheetRow) :
  Sorted Date_le (sort_by_date_stable l).
Proof.
  apply (sort_ascending_Sorted Date_leb Date_le (fun _ => True)).
  - intros a b _ _. unfold Date_leb, Date_le. lia.
  - intros a b _ _. unfold Date_leb, Date_le. lia.
  - apply Forall_forall. intros; exact I.
Qed.

(** An insertion sort whose test never lets a row pass a row of its own
    date keeps the rows of each date in their input order. *)
Lemma sort_ascending_ties (leb : SheetRow -> SheetRow -> bool)
    (l : list SheetRow) (d : Z) :
  (forall x y, leb x y = false -> Date x <> Date y) ->
  filter (fun r => Date r = d) (sort_ascending leb l)
  = filter (fun r => Date r = d) l.
Proof.
  intros Hleb.
  induction l as [| x l IH]; [reflexivity |].
  cbn [sort_ascending]. rewrite (filter_cons _ x l), <- IH.
  generalize (sort_ascending leb l) as sorted. clear IH.
  induction sorted as [| y sorted IHs]; [reflexivity |].
  cbn [insert_sorted]. destruct (leb x y) eqn:Hxy; [reflexivity |].
  rewrite (filter_cons _ y (insert_sorted _ _ _)), IHs, !filter_cons.
  apply Hleb in Hxy.
  destruct (decide (Date x = d)), (decide (Date y = d)); try reflexivity.
  congruence.
Qed.

Lemma sort_by_date_stable_ties (l : list SheetRow) (d : Z) :
  filter (fun r => Date r = d) (sort_by_date_stable l)
  = filter (fun r => Date r = d) l.
Proof.
  apply sort_ascending_ties. intros x y. unfold Date_leb. lia.
Qed.

Lemma sublist_filter_mono {A : Type} (P : A -> Prop) `{!forall x, Decision (P x)}
    (l1 l2 : list A) :
  sublist l1 l2 -> sublist (filter P l1) (filter P l2).
Proof.
  induction 1 as [| x l1 l2 _ IH | x l1 l2 _ IH]; [constructor | |];
    rewrite !filter_cons; destruct (decide (P x)); try constructor; assumption.
Qed.

(** Under a sort that keeps ties in place, [load_data] keeps them too. *)
Lemma load_data_stable_ties
    (read_excel : string -> option (list SheetRow))
    (s : MarketRiskAnalyzer) (sheet : list SheetRow) :
  read_excel (file_path s) = Some sheet ->
  exists df : DataFrame,
    data (fst (load_data read_excel sort_by_date_stable s)) = Some df /\
    ties_in_input_order sheet (map cells df).
Proof.
  intros Hread. rewrite (load_data_Some _ _ s sheet Hread).
  eexists. split; [reflexivity |]. intros d.
  rewrite <- (sort_by_date_stable_ties sheet d).
  apply sublist_filter_mono.
  rewrite <- (attach_returns_cells (sort_by_date_stable sheet)) at 2.
  apply sublist_map, sublist_filter.
Qed.

(* ================================================================== *)
(** * numpy's quicksort on at most 17 entries *)
(* ================================================================== *)

(** Up to 17 entries the routine never partitions: it runs its insertion
    sort on the whole index array. *)


Section ArgsortFacts.
Variable v : list Z.





End ArgsortFacts.









(* ================================================================== *)
(** * The theorems at the sample inputs *)
(* ================================================================== *)

Lemma calculate_parametric_var_formula_witness :
  fst (calculate_parametric_var
         (loaded_analyzer (1 / 2) (frame_of_returns sample_returns)))
  = Return (Some (Fin (mean sample_returns))).
Proof.
  refine (proj2 (calculate_parametric_var_formula
                   (loaded_analyzer (1 / 2) (frame_of_returns sample_returns))
                   (frame_of_returns sample_returns) sample_returns
                   _ _ _ _) _).
  - reflexivity.
  - reflexivity.
  - discriminate.
  - simpl. lra.
  - reflexivity.
Defined.

Lemma calculate_historical_var_quantile_witness :
  exists v : R,
    fst (calculate_historical_var
           (loaded_analyzer (95 / 100) (frame_of_returns sample_returns)))
    = Return (Some (Fin v)) /\
    linear_interpolation_quantile sample_returns (1 - 95 / 100) v /\
    forall v' : R,
      linear_interpolation_quantile sample_returns (1 - 95 / 100) v' -> v' = v.
Proof.
  refine (calculate_historical_var_quantile
            (loaded_analyzer (95 / 100) (frame_of_returns sample_returns))
            (frame_of_returns sample_returns) sample_returns _ _ _ _).
  - reflexivity.
  - reflexivity.
  - discriminate.
  - simpl. lra.
Defined.

Lemma historical_var_monotone_witness :
  exists v1 v2 : R,
    fst (calculate_historical_var
           (loaded_analyzer (90 / 100) (frame_of_returns sample_returns)))
    = Return (Some (Fin v1)) /\
    fst (calculate_historical_var
           (loaded_analyzer (95 / 100) (frame_of_returns sample_returns)))
    = Return (Some (Fin v2)) /\
    v2 <= v1.
Proof.
  refine (historical_var_monotone
            (loaded_analyzer (90 / 100) (frame_of_returns sample_returns))
            (loaded_analyzer (95 / 100) (frame_of_returns sample_returns))
            (frame_of_returns sample_returns) sample_returns _ _ _ _ _ _ _).
  - reflexivity.
  - reflexivity.
  - reflexivity.
  - discriminate.
  - simpl. lra.
  - simpl. lra.
  - simpl. lra.
Defined.

Lemma historical_var_permutation_invariant_witness :
  fst (calculate_historical_var
         (loaded_analyzer (95 / 100) (frame_of_returns sample_returns)))
  = fst (calculate_historical_var
           (loaded_analyzer (95 / 100) (frame_of_returns (rev sample_returns)))).
Proof.
  refine (historical_var_permutation_invariant
            (loaded_analyzer (95 / 100) (frame_of_returns sample_returns))
            (loaded_analyzer (95 / 100) (frame_of_returns (rev sample_returns)))
            (frame_of_returns sample_returns)
            (frame_of_returns (rev sample_returns))
            _ _ _ _).
  - reflexivity.
  - reflexivity.
  - reflexivity.
  - apply (Permutation_rev
             (column_Returns (frame_of_returns sample_returns))).
Defined.

Lemma calculators_without_returns_witness :
  calculate_historical_var (new_analyzer (95 / 100))
  = (Return None, new_analyzer (95 / 100)) /\
  calculate_parametric_var (new_analyzer (95 / 100))
  = (Return None, new_analyzer (95 / 100)) /\
  calculate_historical_var (loaded_analyzer (95 / 100) [])
  = (Return (Some NaN),
     set_result (loaded_analyzer (95 / 100) []) "Historical VaR" NaN).
Proof.
  split; [| split].
  - refine (proj1 (proj1 (calculators_without_returns
                            (new_analyzer (95 / 100))) _)). reflexivity.
  - refine (proj2 (proj1 (calculators_without_returns
                            (new_analyzer (95 / 100))) _)). reflexivity.
  - refine (proj2 (calculators_without_returns
                     (loaded_analyzer (95 / 100) [])) [] _ _ _).
    + reflexivity.
    + reflexivity.
    + simpl. lra.
Defined.

Lemma calculators_frame_witness :
  results (snd (calculate_historical_var
                  (loaded_analyzer (95 / 100) (frame_of_returns sample_returns))))
    !! "Parametric VaR" = None /\
  results (snd (calculate_parametric_var
                  (loaded_analyzer (95 / 100) (frame_of_returns sample_returns))))
    !! "Historical VaR" = None.
Proof.
  destruct (calculators_frame
              (loaded_analyzer (95 / 100) (frame_of_returns sample_returns))
              (frame_of_returns sample_returns) eq_refl)
    as [(_ & _ & _ & _ & Hh & _) (_ & _ & _ & _ & Hp & _)].
  split; [exact Hh | exact Hp].
Defined.

Lemma generate_risk_report_missing_keys_witness :
  snd (generate_risk_report (loaded_analyzer (97 / 100) [])) = Return tt /\
  [Text "will not exceed "; Percent 2 (Fin 0); Text " (Parametric model)."]
    ∈ fst (generate_risk_report (loaded_analyzer (97 / 100) [])).
Proof.
  destruct (proj2 (generate_risk_report_missing_keys (loaded_analyzer (97 / 100) []))
              [] eq_refl) as (Hret & _ & Hp).
  split; [exact Hret |]. apply Hp. reflexivity.
Defined.

Lemma load_data_log_returns_witness :
  exists (df : DataFrame) (prices : list R),
    data (fst (load_data (workbook five_days) sort_by_date_stable
                 (new_analyzer (95 / 100)))) = Some df /\
    sort_by_date_stable five_days ≡ₚ five_days /\
    Sorted Date_le (sort_by_date_stable five_days) /\
    column_Close (sort_by_date_stable five_days) = map Fin prices /\
    map cells df = tail (sort_by_date_stable five_days) /\
    length (column_Returns df) = 4%nat /\
    forall t : nat, (t < 4)%nat ->
      nth t (column_Returns df) NaN
      = Fin (ln (nth (S t) prices 1 / nth t prices 1)).
Proof.
  refine (load_data_log_returns (workbook five_days) sort_by_date_stable
            sort_by_date_stable_Permutation sort_by_date_stable_Sorted
            (new_analyzer (95 / 100)) five_days 4 _ _ _ _).
  - reflexivity.
  - reflexivity.
  - repeat constructor; eexists; (split; [reflexivity | lra]).
  - repeat constructor.
Defined.

Lemma constant_prices_zero_var_witness :
  let s' := fst (load_data (workbook flat_days) sort_by_date_stable
                   (new_analyzer (95 / 100))) in
  fst (calculate_historical_var s') = Return (Some (Fin 0)) /\
  fst (calculate_parametric_var s') = Return (Some (Fin 0)).
Proof.
  destruct (constant_prices_zero_var (workbook flat_days) sort_by_date_stable
              sort_by_date_stable_Permutation
              (new_analyzer (95 / 100)) flat_days 100)
    as (df & _ & _ & Hvar & Hne).
  - reflexivity.
  - lra.
  - repeat constructor.
  - simpl. lra.
  - apply Hvar, Hne; [simpl; lia | repeat constructor].
Defined.


(* ================================================================== *)
(** * Inputs on which the stated claims fail *)
(* ================================================================== *)

Lemma load_blank_volume_days (c : R) :
  data (fst (load_data (workbook blank_volume_days) sort_by_date_stable
               (new_analyzer c)))
  = Some [mkRow (mkSheetRow 3 (Fin 102) [Fin 7000]) (Fin (ln (102 / 101)))].
Proof.
  rewrite (load_data_Some _ _ _ blank_volume_days) by reflexivity.
  change (sort_by_date_stable blank_volume_days) with blank_volume_days.
  unfold blank_volume_days.
  rewrite (attach_returns_positive _ _ 100 [101; 102]);
    [| reflexivity | repeat constructor; lra].
  rewrite DataFrame_dropna_cons_NaN. reflexivity.
Qed.

Lemma missing_cell_drops_a_second_row :
  ~ (forall (read_excel : string -> option (list SheetRow))
            (sort_values : list SheetRow -> list SheetRow),
       (forall l, sort_values l ≡ₚ l) ->
       (forall l, Sorted Date_le (sort_values l)) ->
       forall (s : MarketRiskAnalyzer) (sheet : list SheetRow) (N : nat),
         read_excel (file_path s) = Some sheet ->
         length sheet = S N ->
         Forall (fun r => exists p, Close r = Fin p /\ 0 < p) sheet ->
         exists df : DataFrame,
           data (fst (load_data read_excel sort_values s)) = Some df /\
           length (column_Returns df) = N).
Proof.
  intros H.
  destruct (H (workbook blank_volume_days) sort_by_date_stable
              sort_by_date_stable_Permutation sort_by_date_stable_Sorted
              (new_analyzer (95 / 100)) blank_volume_days 2%nat eq_refl eq_refl)
    as (df & Hd & Hlen).
  - repeat constructor; eexists; (split; [reflexivity | lra]).
  - rewrite load_blank_volume_days in Hd. injection Hd as <-. discriminate.
Qed.

Lemma empty_series_is_not_None :
  ~ (forall (s : MarketRiskAnalyzer) (df : DataFrame),
       data s = Some df -> column_Returns df = [] ->
       fst (calculate_historical_var s) = Return None).
Proof.
  intros H. specialize (H (loaded_analyzer (95 / 100) []) [] eq_refl eq_refl).
  rewrite (calculate_historical_var_empty _ []) in H;
    [discriminate | reflexivity | reflexivity | simpl; lra].
Qed.

Lemma single_day_var_is_NaN :
  ~ (forall (read_excel : string -> option (list SheetRow))
            (sort_values : list SheetRow -> list SheetRow),
       (forall l, sort_values l ≡ₚ l) ->
       (forall l, Sorted Date_le (sort_values l)) ->
       forall (s : MarketRiskAnalyzer) (sheet : list SheetRow) (p : R),
         read_excel (file_path s) = Some sheet ->
         0 < p -> Forall (fun r => Close r = Fin p) sheet ->
         0 < confidence_level s < 1 ->
         fst (calculate_historical_var (fst (load_data read_excel sort_values s)))
         = Return (Some (Fin 0))).
Proof.
  intros H.
  specialize (H (workbook one_day) sort_by_date_stable
                sort_by_date_stable_Permutation sort_by_date_stable_Sorted
                (new_analyzer (95 / 100)) one_day 100 eq_refl).
  rewrite (calculate_historical_var_empty _ []) in H.
  - assert (Hbad : Return (Some NaN) = Return (Some (Fin 0))).
    { apply H; [lra | repeat constructor | simpl; lra]. }
    discriminate.
  - reflexivity.
  - reflexivity.
  - simpl. lra.
Qed.

(** On doubles the parametric estimate depends on the order of the
    returns: at confidence level 0.5 (z-score 0) the four sample returns
    give -2.17e-19 in the order given and 2.17e-19 with the two in the
    middle exchanged. *)
Lemma parametric_var_depends_on_order :
  ~ (forall x x' : list PrimFloat.float,
       x ≡ₚ x' ->
       IEEE.parametric_var64 IEEE.z_median x
       = IEEE.parametric_var64 IEEE.z_median x').
Proof.
  intros H.
  specialize (H IEEE.returns64 IEEE.reordered_returns64
                (perm_skip _ (perm_swap _ _ _))).
  apply (f_equal (PrimFloat.eqb
                    (IEEE.parametric_var64 IEEE.z_median IEEE.returns64))) in H.
  vm_compute in H. discriminate H.
Qed.




(** The sample returns average to zero. *)
Example sample_returns_mean : mean sample_returns = 0.
Proof. unfold mean, sample_returns. simpl. lra. Qed.

(** ** The five-day scenario *)

Lemma load_five_days (c : R) :
  fst (load_data (workbook five_days) sort_by_date_stable (new_analyzer c))
  = loaded_analyzer c
      [ mkRow (mkSheetRow 2 (Fin 101) []) (Fin (ln (101 / 100)));
        mkRow (mkSheetRow 3 (Fin 99) []) (Fin (ln (99 / 101)));
        mkRow (mkSheetRow 4 (Fin 102) []) (Fin (ln (102 / 99)));
        mkRow (mkSheetRow 5 (Fin 98) []) (Fin (ln (98 / 102))) ].
Proof.
  rewrite (load_data_Some _ _ _ five_days) by reflexivity.
  change (sort_by_date_stable five_days)
    with [ mkSheetRow 1 (Fin 100) []; mkSheetRow 2 (Fin 101) [];
           mkSheetRow 3 (Fin 99) []; mkSheetRow 4 (Fin 102) [];
           mkSheetRow 5 (Fin 98) [] ].
  rewrite (attach_returns_positive _ _ 100 [101; 99; 102; 98]);
    [| reflexivity | repeat constructor; lra].
  rewrite DataFrame_dropna_cons_NaN. reflexivity.
Qed.

(** At 95% confidence the Historical VaR of the five-day scenario lies
    15% of the way from the lowest return to the second lowest. *)
Example five_days_historical_var :
  fst (calculate_historical_var
         (fst (load_data (workbook five_days) sort_by_date_stable
                 (new_analyzer (95 / 100)))))
  = Return (Some (Fin (ln (98 / 102)
                       + (ln (99 / 101) - ln (98 / 102)) * (15 / 100)))).
Proof.
  rewrite load_five_days.
  erewrite (calculate_historical_var_finite _ _
              [ln (101 / 100); ln (99 / 101); ln (102 / 99); ln (98 / 102)]);
    [| reflexivity | reflexivity | discriminate | simpl; lra].
  assert (Hsort : sort_ascending Rleb
                    [ln (101 / 100); ln (99 / 101); ln (102 / 99); ln (98 / 102)]
                  = [ln (98 / 102); ln (99 / 101); ln (101 / 100); ln (102 / 99)]).
  { symmetry. apply sort_ascending_Rleb_unique.
    - transitivity [ln (98 / 102); ln (101 / 100); ln (99 / 101); ln (102 / 99)].
      + symmetry. apply (Permutation_cons_append [_; _; _]).
      + apply perm_skip, perm_swap.
    - repeat first [apply Sorted_cons | apply Sorted_nil
                   | apply HdRel_cons | apply HdRel_nil];
        left; apply ln_increasing; lra. }
  cbn [fst]. rewrite Hsort. unfold interpolate. cbn [length confidence_level loaded_analyzer].
  replace (INR (4 - 1)) with 3 by (simpl; lra).
  rewrite (Zfloor_eq 0) by (simpl; lra).
  simpl. do 3 f_equal. lra.
Qed.

(* ================================================================== *)
(** * Calling the calculators again, and in either order *)
(* ================================================================== *)

Lemma analyzer_eq (s t : MarketRiskAnalyzer) :
  file_path s = file_path t -> confidence_level s = confidence_level t ->
  data s = data t -> results s = results t -> s = t.
Proof. destruct s, t; simpl; intros; subst; reflexivity. Qed.

(** The value of either calculator is decided by the data and the
    confidence level alone. *)
Lemma calculate_historical_var_value (s t : MarketRiskAnalyzer) :
  data s = data t -> confidence_level s = confidence_level t ->
  fst (calculate_historical_var s) = fst (calculate_historical_var t).
Proof.
  intros Hd Hc. unfold calculate_historical_var. rewrite Hd, Hc.
  destruct (data t); [| reflexivity].
  destruct (Series_quantile _ _); reflexivity.
Qed.

Lemma calculate_parametric_var_value (s t : MarketRiskAnalyzer) :
  data s = data t -> confidence_level s = confidence_level t ->
  fst (calculate_parametric_var s) = fst (calculate_parametric_var t).
Proof.
  intros Hd Hc. unfold calculate_parametric_var. rewrite Hd, Hc.
  destruct (data t); reflexivity.
Qed.

(** X1.  Recomputing is idempotent: calling a calculator a second time
    returns the same value and leaves the analyzer exactly as the first
    call left it. *)
Theorem calculators_idempotent (s : MarketRiskAnalyzer) :
  calculate_historical_var (snd (calculate_historical_var s))
  = calculate_historical_var s /\
  calculate_parametric_var (snd (calculate_parametric_var s))
  = calculate_parametric_var s.
Proof.
  split.
  - unfold calculate_historical_var.
    destruct (data s) as [df |] eqn:Hd; simpl; [| rewrite Hd; reflexivity].
    destruct (Series_quantile (column_Returns df) (1 - confidence_level s))
      as [v | e] eqn:Hq; simpl; rewrite Hd, Hq; [| reflexivity].
    f_equal. apply analyzer_eq; simpl; try reflexivity.
    apply insert_insert_eq.
  - unfold calculate_parametric_var.
    destruct (data s) as [df |] eqn:Hd; simpl; rewrite Hd; [| reflexivity].
    f_equal. apply analyzer_eq; simpl; try reflexivity.
    apply insert_insert_eq.
Qed.

(** X2.  The two calculators commute: in either order each returns the
    value it returns on its own, and the analyzer ends in the same state. *)
Theorem calculators_commute (s : MarketRiskAnalyzer) :
  fst (calculate_parametric_var (snd (calculate_historical_var s)))
  = fst (calculate_parametric_var s) /\
  fst (calculate_historical_var (snd (calculate_parametric_var s)))
  = fst (calculate_historical_var s) /\
  snd (calculate_parametric_var (snd (calculate_historical_var s)))
  = snd (calculate_historical_var (snd (calculate_parametric_var s))).
Proof.
  destruct (calculate_historical_var_frame s) as (Hf & Hc & Hd & _).
  destruct (calculate_parametric_var_frame s) as (Hf' & Hc' & Hd' & _).
  split; [apply calculate_parametric_var_value; assumption |].
  split; [apply calculate_historical_var_value; assumption |].
  clear Hf Hc Hd Hf' Hc' Hd'.
  unfold calculate_historical_var, calculate_parametric_var.
  destruct (data s) as [df |] eqn:Hdata; simpl; [| rewrite Hdata; reflexivity].
  destruct (Series_quantile (column_Returns df) (1 - confidence_level s))
    as [v | e] eqn:Hq; simpl; rewrite Hdata; simpl; rewrite ?Hq; simpl;
    [| reflexivity].
  apply analyzer_eq; simpl; try reflexivity.
  apply insert_insert_ne. discriminate.
Qed.

(* ================================================================== *)
(** * A confidence level outside [0,1] *)
(* ================================================================== *)

Lemma stats_norm_ppf_outside (p : R) : p < 0 \/ 1 < p -> stats_norm_ppf p = NaN.
Proof.
  intros [Hp | Hp]; unfold stats_norm_ppf.
  - rewrite (Rsign_neg p), (Rsign_neg (p - 1)) by lra. reflexivity.
  - rewrite (Rsign_pos p), (Rsign_pos (p - 1)) by lra. reflexivity.
Qed.

Lemma fadd_NaN_r (a : float) : fadd a NaN = NaN.
Proof. destruct a; reflexivity. Qed.

(** X3.  The confidence level is not validated.  With data loaded and a
    level below 0 or above 1, [calculate_historical_var] raises
    [ValueError] and records nothing, while [calculate_parametric_var]
    returns NaN and records it. *)
Theorem confidence_out_of_range (s : MarketRiskAnalyzer) (df : DataFrame) :
  data s = Some df ->
  confidence_level s < 0 \/ 1 < confidence_level s ->
  calculate_historical_var s = (Raise ValueError, s) /\
  calculate_parametric_var s
  = (Return (Some NaN), set_result s "Parametric VaR" NaN).
Proof.
  intros Hd Hc. split.
  - unfold calculate_historical_var, Series_quantile. rewrite Hd.
    destruct (Rle_dec 0 (1 - confidence_level s));
      destruct (Rle_dec (1 - confidence_level s) 1); try reflexivity.
    lra.
  - unfold calculate_parametric_var. rewrite Hd.
    rewrite stats_norm_ppf_outside by lra.
    simpl fmul. rewrite fadd_NaN_r. reflexivity.
Qed.

Lemma confidence_out_of_range_witness :
  calculate_historical_var (loaded_analyzer (3 / 2) (frame_of_returns sample_returns))
  = (Raise ValueError, loaded_analyzer (3 / 2) (frame_of_returns sample_returns)).
Proof.
  refine (proj1 (confidence_out_of_range
                   (loaded_analyzer (3 / 2) (frame_of_returns sample_returns))
                   (frame_of_returns sample_returns) _ _)).
  - reflexivity.
  - right. simpl. lra.
Defined.

(* ================================================================== *)
(** * From the calculators to the report and the chart *)
(* ================================================================== *)

(** Finite returns give the histogram a finite range. *)
Lemma hist_range_finite_Fin (rs : list R) : hist_range_finite (map Fin rs) = true.
Proof.
  assert (Hinf : existsb is_inf (map Fin rs) = false)
    by (induction rs as [| r rs IH]; [reflexivity | exact IH]).
  destruct rs as [| r rs]; [reflexivity |].
  unfold hist_range_finite. simpl in *. rewrite Hinf. reflexivity.
Qed.

(** The analyzer after both calculators: the two values, recorded under
    their keys. *)
Lemma calculators_final_state
    (s : MarketRiskAnalyzer) (df : DataFrame) (rs : list R) :
  data s = Some df ->
  column_Returns df = map Fin rs -> rs <> [] ->
  0 < confidence_level s < 1 ->
  exists historical parametric : R,
    fst (calculate_historical_var s) = Return (Some (Fin historical)) /\
    fst (calculate_parametric_var s) = Return (Some (Fin parametric)) /\
    snd (calculate_parametric_var (snd (calculate_historical_var s)))
    = mkAnalyzer (file_path s) (confidence_level s) (Some df)
        (<["Parametric VaR" := Fin parametric]>
           (<["Historical VaR" := Fin historical]> (results s))).
Proof.
  intros Hd Hr Hne Hc.
  pose proof (calculate_historical_var_finite s df rs Hd Hr Hne) as Hh.
  specialize (Hh ltac:(lra)). cbv zeta in Hh.
  pose proof (calculate_parametric_var_finite s df rs Hd Hr Hne Hc) as Hp.
  cbv zeta in Hp.
  eexists _, _. rewrite Hh, Hp.
  split; [reflexivity |]. split; [reflexivity |].
  cbn [snd].
  rewrite (calculate_parametric_var_finite _ df rs) by assumption.
  cbn [snd]. unfold set_result. cbn [file_path confidence_level data results].
  rewrite Hd. reflexivity.
Qed.

(** With both values recorded and finite returns, the report prints the
    two values and the chart marks them. *)
Lemma report_and_chart_of_results
    (path : string) (c : R) (df : DataFrame) (rs : list R)
    (m : gmap string float) (historical parametric : float) :
  column_Returns df = map Fin rs ->
  let s := mkAnalyzer path c (Some df)
             (<["Parametric VaR" := parametric]>
                (<["Historical VaR" := historical]> m)) in
  snd (generate_risk_report s) = Return tt /\
  [Text "1. Historical VaR:   "; Percent 4 historical]
    ∈ fst (generate_risk_report s) /\
  [Text "2. Parametric VaR:   "; Percent 4 parametric]
    ∈ fst (generate_risk_report s) /\
  visualize_risk s
  = Return (mkChart (column_Returns df) 50
              [ (historical,
                 [Text "Historical VaR ("; Percent 2 historical; Text ")"]);
                (parametric,
                 [Text "Parametric VaR ("; Percent 2 parametric; Text ")"]) ]).
Proof.
  intros Hr s. subst s.
  assert (Hhist : hist_range_finite (column_Returns df) = true)
    by (rewrite Hr; apply hist_range_finite_Fin).
  unfold generate_risk_report, visualize_risk, report_body, dict_get.
  cbn [data results fst snd]. rewrite Hhist.
  rewrite lookup_insert_eq.
  rewrite lookup_insert_ne by discriminate. rewrite lookup_insert_eq.
  cbn [default]. clear Hr Hhist. split; [reflexivity |].
  split; [set_solver |]. split; [set_solver | reflexivity].
Qed.

(** X4.  Once both calculators have run on loaded data with at least one
    return, all returns finite, and a confidence level in (0,1), both
    returned values are finite numbers, the report prints exactly these
    two values, and the chart is drawn with its two markers at them. *)
Theorem report_and_chart_after_calculators
    (s : MarketRiskAnalyzer) (df : DataFrame) (rs : list R) :
  data s = Some df ->
  column_Returns df = map Fin rs -> rs <> [] ->
  0 < confidence_level s < 1 ->
  let s' := snd (calculate_parametric_var (snd (calculate_historical_var s))) in
  exists historical parametric : R,
    fst (calculate_historical_var s) = Return (Some (Fin historical)) /\
    fst (calculate_parametric_var s) = Return (Some (Fin parametric)) /\
    snd (generate_risk_report s') = Return tt /\
    [Text "1. Historical VaR:   "; Percent 4 (Fin historical)]
      ∈ fst (generate_risk_report s') /\
    [Text "2. Parametric VaR:   "; Percent 4 (Fin parametric)]
      ∈ fst (generate_risk_report s') /\
    visualize_risk s'
    = Return (mkChart (column_Returns df) 50
                [ (Fin historical,
                   [Text "Historical VaR ("; Percent 2 (Fin historical); Text ")"]);
                  (Fin parametric,
                   [Text "Parametric VaR ("; Percent 2 (Fin parametric); Text ")"]) ]).
Proof.
  intros Hd Hr Hne Hc s'.
  destruct (calculators_final_state s df rs Hd Hr Hne Hc)
    as (h & p & Hh & Hp & Hs').
  exists h, p. split; [exact Hh |]. split; [exact Hp |].
  subst s'. rewrite Hs'.
  apply (report_and_chart_of_results _ _ df rs _ (Fin h) (Fin p) Hr).
Qed.

Lemma report_and_chart_after_calculators_witness :
  exists historical parametric : R,
    visualize_risk
      (snd (calculate_parametric_var
              (snd (calculate_historical_var
                      (loaded_analyzer (97 / 100)
                         (frame_of_returns sample_returns))))))
    = Return (mkChart (map Fin sample_returns) 50
                [ (Fin historical,
                   [Text "Historical VaR ("; Percent 2 (Fin historical); Text ")"]);
                  (Fin parametric,
                   [Text "Parametric VaR ("; Percent 2 (Fin parametric); Text ")"]) ]).
Proof.
  destruct (report_and_chart_after_calculators
              (loaded_analyzer (97 / 100) (frame_of_returns sample_returns))
              (frame_of_returns sample_returns) sample_returns)
    as (h & p & _ & _ & _ & _ & _ & Hchart).
  - reflexivity.
  - reflexivity.
  - discriminate.
  - simpl. lra.
  - exists h, p. exact Hchart.
Defined.

(** X5.  Run without computing anything first, the chart raises
    [KeyError] where the report prints zeros: with data loaded, all
    returns finite and a result missing, [visualize_risk] draws the
    histogram and raises at the subscript, while [generate_risk_report]
    completes. *)
Theorem chart_raises_where_report_defaults
    (s : MarketRiskAnalyzer) (df : DataFrame) (rs : list R) :
  data s = Some df ->
  column_Returns df = map Fin rs ->
  results s !! "Historical VaR" = None \/ results s !! "Parametric VaR" = None ->
  (exists key : string, visualize_risk s = Raise (KeyError key)) /\
  snd (generate_risk_report s) = Return tt.
Proof.
  intros Hd Hr Hmiss. split.
  - unfold visualize_risk. rewrite Hd, Hr, hist_range_finite_Fin.
    destruct (results s !! "Historical VaR") as [h |]; [| eexists; reflexivity].
    destruct Hmiss as [Hm | Hm]; [discriminate |]. rewrite Hm.
    eexists; reflexivity.
  - unfold generate_risk_report. rewrite Hd. reflexivity.
Qed.

Lemma chart_raises_where_report_defaults_witness :
  (exists key : string,
     visualize_risk (loaded_analyzer (97 / 100) (frame_of_returns sample_returns))
     = Raise (KeyError key)) /\
  snd (generate_risk_report
         (loaded_analyzer (97 / 100) (frame_of_returns sample_returns)))
  = Return tt.
Proof.
  refine (chart_raises_where_report_defaults
            (loaded_analyzer (97 / 100) (frame_of_returns sample_returns))
            (frame_of_returns sample_returns) sample_returns _ _ _).
  - reflexivity.
  - reflexivity.
  - left. reflexivity.
Defined.

(** On strictly positive prices every return that survives [dropna] is a
    finite number. *)
Lemma zip_with_mkRow_Forall (P : float -> Prop) (rows : list SheetRow)
    (rets : Series) :
  Forall P rets -> Forall (fun r => P (Returns r)) (zip_with mkRow rows rets).
Proof.
  intros H. revert rows. induction H as [| x rets Hx _ IH]; intros [| r rows];
    try constructor; [exact Hx | apply IH].
Qed.

Lemma loaded_returns_finite (sorted : list SheetRow) :
  Forall (fun r => exists p, Close r = Fin p /\ 0 < p) sorted ->
  exists rs : list R,
    column_Returns (DataFrame_dropna (attach_returns sorted)) = map Fin rs.
Proof.
  intros Hpos.
  assert (Hfin : Forall (fun a => exists x, a = Fin x)
                   (column_Returns (DataFrame_dropna (attach_returns sorted)))).
  { destruct (positive_Close_prices _ Hpos) as (prices & Hprices & Hpp).
    destruct sorted as [| r0 rows]; [constructor |].
    destruct prices as [| p0 ps]; [discriminate |].
    rewrite (attach_returns_positive r0 rows p0 ps Hprices Hpp).
    rewrite DataFrame_dropna_cons_NaN.
    unfold column_Returns, DataFrame_dropna. apply Forall_map.
    apply Forall_forall. intros r Hr.
    apply list_elem_of_filter in Hr as [_ Hr]. revert r Hr.
    apply Forall_forall.
    apply (zip_with_mkRow_Forall (fun a => exists x, a = Fin x)).
    apply Forall_map, Forall_forall. intros x _. exists x. reflexivity. }
  induction Hfin as [| a col [x ->] _ [rs ->]].
  - exists []. reflexivity.
  - exists (x :: rs). reflexivity.
Qed.

(* ================================================================== *)
(** * The entry point *)
(* ================================================================== *)

Section Main.

Variable read_excel : string -> option (list SheetRow).
Variable sort_values : list SheetRow -> list SheetRow.

(** X6.  When the workbook cannot be read, the run does not stop at the
    load: the error line is printed, both calculators return [None]
    silently, the report prints its heading and then raises [TypeError];
    no chart is drawn. *)
Theorem main_unreadable_workbook :
  read_excel INPUT_FILE = None ->
  main read_excel sort_values
  = ([ [Text "Loading data from "; Text INPUT_FILE; Text "..."];
       [Text "Error loading data: "; ExceptionText] ]
       ++ report_head (mkAnalyzer INPUT_FILE CONFIDENCE None ∅),
     Raise TypeError).
Proof.
  intros Hread. unfold main, __init__, load_data.
  cbn [file_path]. rewrite Hread. reflexivity.
Qed.

(** X7.  When the workbook holds a table of at least two rows with
    strictly positive prices and no blank cell, the run completes: no
    call raises, one row is dropped, both estimates are finite numbers,
    the report shows them and the chart has its markers at the same two
    values.  (The sort is any that returns the same rows.) *)
Theorem main_readable_workbook (sheet : list SheetRow) :
  read_excel INPUT_FILE = Some sheet ->
  (forall l, sort_values l ≡ₚ l) ->
  (2 <= length sheet)%nat ->
  Forall (fun r => exists p, Close r = Fin p /\ 0 < p) sheet ->
  Forall (fun r => Forall (fun a => notna a = true) (Others r)) sheet ->
  exists (df : DataFrame) (historical parametric : R) (report : list line),
    main read_excel sort_values
    = (report,
       Return (mkChart (column_Returns df) 50
                 [ (Fin historical,
                    [Text "Historical VaR ("; Percent 2 (Fin historical); Text ")"]);
                   (Fin parametric,
                    [Text "Parametric VaR ("; Percent 2 (Fin parametric); Text ")"]) ])) /\
    df = DataFrame_dropna (attach_returns (sort_values sheet)) /\
    length df = (length sheet - 1)%nat /\
    [Text "Data loaded successfully. Total trading days analyzed: ";
     Count (length df)] ∈ report /\
    [Text "1. Historical VaR:   "; Percent 4 (Fin historical)] ∈ report /\
    [Text "2. Parametric VaR:   "; Percent 4 (Fin parametric)] ∈ report.
Proof.
  intros Hread Hperm Hlen Hpos Hothers.
  set (df := DataFrame_dropna (attach_returns (sort_values sheet))).
  set (s := mkAnalyzer INPUT_FILE CONFIDENCE (Some df) ∅).
  assert (Hsorted : forall P : SheetRow -> Prop,
             Forall P sheet -> Forall P (sort_values sheet)).
  { intros P HP. rewrite Forall_forall in *. intros r Hr. apply HP.
    rewrite <- (Hperm sheet). exact Hr. }
  destruct (dropna_attach_returns_positive (sort_values sheet)
              (Hsorted _ Hpos) (Hsorted _ Hothers))
    as (_ & _ & _ & Hcount & _).
  rewrite (Permutation_length (Hperm sheet)) in Hcount. fold df in Hcount.
  destruct (loaded_returns_finite (sort_values sheet) (Hsorted _ Hpos))
    as [rs Hrs].
  fold df in Hrs.
  assert (Hne : rs <> []).
  { intros ->. rewrite Hrs in Hcount. simpl in Hcount. lia. }
  destruct (calculators_final_state s df rs eq_refl Hrs Hne)
    as (h & p & Hh & Hp & Hs').
  { unfold s, CONFIDENCE. simpl. lra. }
  destruct (report_and_chart_of_results INPUT_FILE CONFIDENCE df rs ∅
              (Fin h) (Fin p) Hrs)
    as (Hret & H1 & H2 & Hchart).
  change (file_path s) with INPUT_FILE in Hs'.
  change (confidence_level s) with CONFIDENCE in Hs'.
  change (results s) with (∅ : gmap string float) in Hs'.
  rewrite <- Hs' in Hret, H1, H2, Hchart.
  pose proof (calculate_parametric_var_value
                (snd (calculate_historical_var s)) s) as Hpv.
  destruct (calculate_historical_var_frame s) as (_ & Hc & Hd & _).
  specialize (Hpv Hd Hc). rewrite Hp in Hpv. clear Hc Hd.
  destruct (calculate_historical_var s) as [rh s1] eqn:Eh.
  cbn [fst snd] in *. subst rh.
  destruct (calculate_parametric_var s1) as [rp s2] eqn:Ep.
  cbn [fst snd] in *. subst rp.
  destruct (generate_risk_report s2) as [report outcome] eqn:Er.
  cbn [fst snd] in *. subst outcome.
  exists df, h, p.
  exists ([ [Text "Loading data from "; Text INPUT_FILE; Text "..."];
            [Text "Data loaded successfully. Total trading days analyzed: ";
             Count (length df)] ] ++ report).
  split.
  { unfold main, __init__, load_data. cbn [file_path]. rewrite Hread.
    fold df. change (set_data _ df) with s.
    rewrite Eh, Ep, Er, Hchart. reflexivity. }
  split; [reflexivity |].
  split; [unfold column_Returns in Hcount; rewrite length_map in Hcount;
          exact Hcount |].
  split; [set_solver |].
  split; apply elem_of_app; right; assumption.
Qed.

End Main.

Lemma main_unreadable_workbook_witness :
  snd (main (fun _ => None) sort_by_date_stable) = Raise TypeError.
Proof.
  rewrite (main_unreadable_workbook (fun _ => None) sort_by_date_stable eq_refl).
  reflexivity.
Defined.

Lemma main_readable_workbook_witness :
  exists (df : DataFrame) (historical parametric : R) (report : list line),
    main (workbook five_days) sort_by_date_stable
    = (report,
       Return (mkChart (column_Returns df) 50
                 [ (Fin historical,
                    [Text "Historical VaR ("; Percent 2 (Fin historical); Text ")"]);
                   (Fin parametric,
                    [Text "Parametric VaR ("; Percent 2 (Fin parametric); Text ")"]) ])) /\
    df = DataFrame_dropna (attach_returns (sort_by_date_stable five_days)) /\
    length df = 4%nat /\
    [Text "Data loaded successfully. Total trading days analyzed: ";
     Count (length df)] ∈ report /\
    [Text "1. Historical VaR:   "; Percent 4 (Fin historical)] ∈ report /\
    [Text "2. Parametric VaR:   "; Percent 4 (Fin parametric)] ∈ report.
Proof.
  refine (main_readable_workbook (workbook five_days) sort_by_date_stable
            five_days _ _ _ _ _).
  - reflexivity.
  - apply sort_by_date_stable_Permutation.
  - simpl. lia.
  - unfold five_days.
    repeat (apply Forall_cons; split;
            [eexists; split; [reflexivity | lra] |]).
    apply Forall_nil_2.
  - unfold five_days. repeat constructor.
Defined.

(* ================================================================== *)
(** * What loading leaves in the analyzer *)
(* ================================================================== *)

(** Whatever the prices, the first row has nothing to be compared with:
    its return is NaN. *)
Lemma attach_returns_first (r0 : SheetRow) (rows : list SheetRow) :
  exists rest : DataFrame,
    attach_returns (r0 :: rows) = mkRow r0 NaN :: rest /\
    map cells rest = rows.
Proof.
  pose proof (attach_returns_cells (r0 :: rows)) as Hcells.
  unfold attach_returns, Series_shift1, column_Close in *.
  cbn [map length take zip_with] in *.
  replace (np_log (fdiv (Close r0) NaN)) with NaN in *
    by (destruct (Close r0); reflexivity).
  eexists. split; [reflexivity |].
  injection Hcells as Hcells. exact Hcells.
Qed.

Section Loaded.

Variable read_excel : string -> option (list SheetRow).
Variable sort_values : list SheetRow -> list SheetRow.
Hypothesis sort_values_Permutation : forall l, sort_values l ≡ₚ l.

(** X8.  After a successful load no cell of [self.data] is missing: every
    row has its Close, its other cells and its return present, so the
    reductions that skip NaN skip nothing.  The path, the confidence
    level and the stored results are as before, and the count printed is
    the number of rows kept. *)
Theorem load_data_no_missing_cell
    (s : MarketRiskAnalyzer) (sheet : list SheetRow) :
  read_excel (file_path s) = Some sheet ->
  exists df : DataFrame,
    load_data read_excel sort_values s
    = (mkAnalyzer (file_path s) (confidence_level s) (Some df) (results s),
       [ [Text "Loading data from "; Text (file_path s); Text "..."];
         [Text "Data loaded successfully. Total trading days analyzed: ";
          Count (length df)] ]) /\
    Forall (fun r => notna (Close (cells r)) = true /\
                     Forall (fun a => notna a = true) (Others (cells r)) /\
                     notna (Returns r) = true) df /\
    Series_dropna (column_Returns df) = column_Returns df.
Proof.
  intros Hread. unfold load_data. rewrite Hread.
  set (df := DataFrame_dropna (attach_returns (sort_values sheet))).
  exists df. split; [reflexivity |].
  assert (Hall : Forall (fun r => row_notna r = true) df).
  { apply Forall_forall. intros r Hr. unfold df, DataFrame_dropna in Hr.
    apply list_elem_of_filter in Hr. tauto. }
  split.
  - eapply Forall_impl; [exact Hall |]. intros r Hr.
    unfold row_notna in Hr. apply andb_prop in Hr as [Hr Hret].
    apply andb_prop in Hr as [Hclose Hothers].
    repeat split; try assumption.
    apply Forall_forall. intros a Ha.
    rewrite forallb_forall in Hothers. apply Hothers, list_elem_of_In, Ha.
  - unfold Series_dropna, column_Returns.
    induction Hall as [| r l Hr _ IH]; [reflexivity |].
    cbn [map]. rewrite filter_cons_True, IH; [reflexivity |].
    unfold row_notna in Hr. apply andb_prop in Hr. tauto.
Qed.

(** X9.  Loading always loses the earliest row, whatever the table holds:
    the rows kept are among the date-sorted rows after the first, so a
    table of n rows leaves at most n - 1 returns and a one-row table
    leaves none. *)
Theorem load_data_drops_earliest_row
    (s : MarketRiskAnalyzer) (sheet : list SheetRow) :
  read_excel (file_path s) = Some sheet ->
  exists df : DataFrame,
    data (fst (load_data read_excel sort_values s)) = Some df /\
    sublist (map cells df) (tail (sort_values sheet)) /\
    (length (column_Returns df) <= length sheet - 1)%nat.
Proof.
  intros Hread. rewrite (load_data_Some _ _ s sheet Hread).
  eexists. split; [reflexivity |].
  pose proof (Permutation_length (sort_values_Permutation sheet)) as Hlen.
  assert (Hsub : sublist
                   (map cells (DataFrame_dropna (attach_returns (sort_values sheet))))
                   (tail (sort_values sheet))).
  { destruct (sort_values sheet) as [| r0 rows]; [constructor |].
    destruct (attach_returns_first r0 rows) as (rest & -> & Hrest).
    rewrite DataFrame_dropna_cons_NaN. cbn [tail]. rewrite <- Hrest.
    apply sublist_map, sublist_filter. }
  split; [exact Hsub |].
  apply sublist_length in Hsub. unfold column_Returns.
  rewrite !length_map in *.
  destruct (sort_values sheet); simpl in *; lia.
Qed.

End Loaded.

Lemma load_data_no_missing_cell_witness :
  exists df : DataFrame,
    data (fst (load_data (workbook blank_volume_days) sort_by_date_stable
                 (new_analyzer (95 / 100)))) = Some df /\
    Series_dropna (column_Returns df) = column_Returns df.
Proof.
  destruct (load_data_no_missing_cell (workbook blank_volume_days)
              sort_by_date_stable (new_analyzer (95 / 100)) blank_volume_days
              eq_refl) as (df & Hload & _ & Hdrop).
  exists df. rewrite Hload. split; [reflexivity | exact Hdrop].
Defined.

Lemma load_data_drops_earliest_row_witness :
  exists df : DataFrame,
    data (fst (load_data (workbook one_day) sort_by_date_stable
                 (new_analyzer (95 / 100)))) = Some df /\
    sublist (map cells df) (tail (sort_by_date_stable one_day)) /\
    (length (column_Returns df) <= length one_day - 1)%nat.
Proof.
  refine (load_data_drops_earliest_row (workbook one_day) sort_by_date_stable
            sort_by_date_stable_Permutation (new_analyzer (95 / 100)) one_day _).
  reflexivity.
Defined.

(* ================================================================== *)
(** * Where the Historical VaR lies *)
(* ================================================================== *)

Lemma sort_ascending_Rleb_nonempty (rs : list R) :
  rs <> [] -> sort_ascending Rleb rs <> [].
Proof.
  intros Hne Hnil. apply Hne, Permutation_nil.
  rewrite <- Hnil. apply sort_ascending_Permutation.
Qed.

Lemma sorted_nth_elem (rs : list R) (i : nat) :
  (i < length rs)%nat -> nth i (sort_ascending Rleb rs) 0 ∈ rs.
Proof.
  intros Hi. rewrite <- (sort_ascending_Permutation Rleb rs) at 2.
  apply list_elem_of_In, nth_In. rewrite sort_ascending_length. exact Hi.
Qed.

(** X10.  The Historical VaR is never more extreme than the observed
    returns: for a non-empty series of finite returns and a confidence
    level in [0,1] it lies between the smallest and the largest return. *)
Theorem historical_var_within_observed
    (s : MarketRiskAnalyzer) (df : DataFrame) (rs : list R) (lo hi : R) :
  data s = Some df -> column_Returns df = map Fin rs -> rs <> [] ->
  0 <= confidence_level s <= 1 ->
  Forall (fun r => lo <= r <= hi) rs ->
  exists v : R,
    fst (calculate_historical_var s) = Return (Some (Fin v)) /\ lo <= v <= hi.
Proof.
  intros Hd Hr Hne Hc Hbounds.
  assert (Hq : 0 <= 1 - confidence_level s <= 1) by lra.
  rewrite (calculate_historical_var_finite s df rs) by assumption.
  eexists. split; [reflexivity |].
  pose proof (interpolate_between (sort_ascending Rleb rs)
                (1 - confidence_level s)
                (sort_ascending_Rleb_nonempty rs Hne)
                (sort_ascending_Rleb_Sorted rs) Hq) as Hb.
  cbv zeta in Hb. rewrite sort_ascending_length in Hb.
  destruct (rank_floor (length rs - 1)%nat (1 - confidence_level s) Hq)
    as (_ & Hi & _ & _).
  assert (Hlen : (0 < length rs)%nat) by (destruct rs; [congruence | simpl; lia]).
  rewrite Forall_forall in Hbounds.
  set (i := Z.to_nat (Zfloor (INR (length rs - 1) * (1 - confidence_level s)))) in *.
  pose proof (Hbounds _ (sorted_nth_elem rs i ltac:(lia))) as Hlo.
  pose proof (Hbounds _ (sorted_nth_elem rs (Nat.min (S i) (length rs - 1))
                           ltac:(lia))) as Hhi.
  lra.
Qed.

Lemma historical_var_within_observed_witness :
  exists v : R,
    fst (calculate_historical_var
           (loaded_analyzer (95 / 100) (frame_of_returns sample_returns)))
    = Return (Some (Fin v)) /\ - 2 / 100 <= v <= 15 / 1000.
Proof.
  refine (historical_var_within_observed
            (loaded_analyzer (95 / 100) (frame_of_returns sample_returns))
            (frame_of_returns sample_returns) sample_returns
            (- 2 / 100) (15 / 1000) _ _ _ _ _).
  - reflexivity.
  - reflexivity.
  - discriminate.
  - simpl. lra.
  - repeat constructor; lra.
Defined.

(** X11.  At the two ends of the range the Historical VaR is an observed
    return: at confidence 1 it is the smallest return, at confidence 0 the
    largest. *)
Theorem historical_var_at_the_ends
    (s : MarketRiskAnalyzer) (df : DataFrame) (rs : list R) :
  data s = Some df -> column_Returns df = map Fin rs -> rs <> [] ->
  confidence_level s = 1 \/ confidence_level s = 0 ->
  exists v : R,
    fst (calculate_historical_var s) = Return (Some (Fin v)) /\ v ∈ rs /\
    (confidence_level s = 1 -> Forall (fun r => v <= r) rs) /\
    (confidence_level s = 0 -> Forall (fun r => r <= v) rs).
Proof.
  intros Hd Hr Hne Hc.
  assert (Hq : 0 <= 1 - confidence_level s <= 1) by (destruct Hc; lra).
  rewrite (calculate_historical_var_finite s df rs) by assumption.
  eexists. split; [reflexivity |].
  assert (Hlen : (0 < length rs)%nat) by (destruct rs; [congruence | simpl; lia]).
  pose proof (sort_ascending_Rleb_Sorted rs) as Hs.
  pose proof (sort_ascending_length Rleb rs) as Hl.
  assert (Hnth : forall x, x ∈ rs ->
            exists j, (j < length rs)%nat /\ x = nth j (sort_ascending Rleb rs) 0).
  { intros x Hx. rewrite <- (sort_ascending_Permutation Rleb rs) in Hx.
    apply list_elem_of_In, (In_nth _ _ 0) in Hx as (j & Hj & Hx).
    exists j. split; [lia | congruence]. }
  unfold interpolate. rewrite Hl.
  destruct Hc as [Hc | Hc]; rewrite Hc.
  - replace (INR (length rs - 1) * (1 - 1)) with (IZR 0) by (simpl; lra).
    rewrite ZfloorZ. change (Z.to_nat 0) with 0%nat.
    replace (nth 0 (sort_ascending Rleb rs) 0
             + (nth (Nat.min 1 (length rs - 1)) (sort_ascending Rleb rs) 0
                - nth 0 (sort_ascending Rleb rs) 0) * (IZR 0 - IZR 0))
      with (nth 0 (sort_ascending Rleb rs) 0) by (simpl; lra).
    split; [apply sorted_nth_elem; lia |].
    split; [| intros; lra].
    intros _. apply Forall_forall. intros x Hx.
    destruct (Hnth x Hx) as (j & Hj & ->).
    apply Sorted_nth_le; [exact Hs | lia | lia].
  - replace (INR (length rs - 1) * (1 - 0))
      with (IZR (Z.of_nat (length rs - 1))) by (rewrite <- INR_IZR_INZ; lra).
    rewrite ZfloorZ, Nat2Z.id.
    replace (Nat.min (S (length rs - 1)) (length rs - 1))
      with (length rs - 1)%nat by lia.
    replace (nth (length rs - 1) (sort_ascending Rleb rs) 0
             + (nth (length rs - 1) (sort_ascending Rleb rs) 0
                - nth (length rs - 1) (sort_ascending Rleb rs) 0)
               * (IZR (Z.of_nat (length rs - 1)) - IZR (Z.of_nat (length rs - 1))))
      with (nth (length rs - 1) (sort_ascending Rleb rs) 0) by lra.
    split; [apply sorted_nth_elem; lia |].
    split; [intros; lra |].
    intros _. apply Forall_forall. intros x Hx.
    destruct (Hnth x Hx) as (j & Hj & ->).
    apply Sorted_nth_le; [exact Hs | lia | lia].
Qed.

Lemma historical_var_at_the_ends_witness :
  exists v : R,
    fst (calculate_historical_var
           (loaded_analyzer 1 (frame_of_returns sample_returns)))
    = Return (Some (Fin v)) /\ v ∈ sample_returns /\
    Forall (fun r => v <= r) sample_returns.
Proof.
  destruct (historical_var_at_the_ends
              (loaded_analyzer 1 (frame_of_returns sample_returns))
              (frame_of_returns sample_returns) sample_returns)
    as (v & Hv & Hin & Hmin & _).
  - reflexivity.
  - reflexivity.
  - discriminate.
  - left. reflexivity.
  - exists v. split; [exact Hv |]. split; [exact Hin |]. apply Hmin. reflexivity.
Defined.

Lemma Rsum_constant (r : R) (rs : list R) :
  Forall (fun x => x = r) rs -> Rsum rs = INR (length rs) * r.
Proof.
  induction 1 as [| x rs -> _ IH]; [simpl; lra |].
  change (Rsum (r :: rs)) with (r + Rsum rs). rewrite IH.
  change (length (r :: rs)) with (S (length rs)). rewrite S_INR. lra.
Qed.

Lemma nth_constant (r : R) (rs : list R) (i : nat) :
  Forall (fun x => x = r) rs -> (i < length rs)%nat -> nth i rs 0 = r.
Proof.
  intros H Hi. rewrite Forall_forall in H.
  apply H, list_elem_of_In, nth_In, Hi.
Qed.

(** X12.  When every return in the data is the same finite value, the
    Historical VaR is that value for every confidence level in (0,1): the
    order statistics coincide.  With a single return (a table of two
    days) the Parametric VaR is that value too: the mean is the return
    itself and the deviation is zero. *)
Theorem equal_returns_var
    (s : MarketRiskAnalyzer) (df : DataFrame) (rs : list R) (r : R) :
  data s = Some df -> column_Returns df = map Fin rs -> rs <> [] ->
  Forall (fun x => x = r) rs ->
  0 < confidence_level s < 1 ->
  fst (calculate_historical_var s) = Return (Some (Fin r)) /\
  (length rs = 1%nat ->
     fst (calculate_parametric_var s) = Return (Some (Fin r))).
Proof.
  intros Hd Hr Hne Hall Hc.
  assert (Hq : 0 <= 1 - confidence_level s <= 1) by lra.
  assert (Hlen : (0 < length rs)%nat) by (destruct rs; [congruence | simpl; lia]).
  split.
  - rewrite (calculate_historical_var_finite s df rs) by assumption.
    cbn [fst]. do 3 f_equal. unfold interpolate.
    assert (Hsorted : Forall (fun x => x = r) (sort_ascending Rleb rs))
      by (rewrite sort_ascending_Permutation; exact Hall).
    pose proof (sort_ascending_length Rleb rs) as Hl. rewrite Hl.
    destruct (rank_floor (length rs - 1)%nat (1 - confidence_level s) Hq)
      as (_ & Hi & _ & _).
    rewrite !(nth_constant r) by (try exact Hsorted; lia). lra.
  - intros Hone.
    destruct rs as [| x [| y rs]]; try discriminate Hone.
    apply Forall_cons in Hall as [-> _].
    rewrite (calculate_parametric_var_finite s df [r]) by assumption.
    cbn [fst]. do 3 f_equal.
    assert (Hm : mean [r] = r) by (unfold mean; simpl; lra).
    assert (Hs : population_std [r] = 0).
    { unfold population_std. rewrite Hm. simpl.
      replace (((r - r) * (r - r) + 0) / 1) with 0 by lra. apply sqrt_0. }
    rewrite Hm, Hs. lra.
Qed.

Lemma equal_returns_var_witness :
  fst (calculate_historical_var
         (loaded_analyzer (95 / 100)
            (frame_of_returns [1 / 100; 1 / 100; 1 / 100])))
  = Return (Some (Fin (1 / 100))) /\
  fst (calculate_parametric_var
         (loaded_analyzer (95 / 100) (frame_of_returns [1 / 100])))
  = Return (Some (Fin (1 / 100))).
Proof.
  split.
  - refine (proj1 (equal_returns_var
                     (loaded_analyzer (95 / 100)
                        (frame_of_returns [1 / 100; 1 / 100; 1 / 100]))
                     (frame_of_returns [1 / 100; 1 / 100; 1 / 100])
                     [1 / 100; 1 / 100; 1 / 100] (1 / 100) _ _ _ _ _)).
    + reflexivity.
    + reflexivity.
    + discriminate.
    + repeat constructor.
    + simpl. lra.
  - refine (proj2 (equal_returns_var
                     (loaded_analyzer (95 / 100) (frame_of_returns [1 / 100]))
                     (frame_of_returns [1 / 100]) [1 / 100] (1 / 100)
                     _ _ _ _ _) _).
    + reflexivity.
    + reflexivity.
    + discriminate.
    + repeat constructor.
    + simpl. lra.
    + reflexivity.
Defined.

(* ================================================================== *)
(** * Certainty: a confidence level of exactly 1 *)
(* ================================================================== *)

(** X16.  At a confidence level of exactly 1 the normal quantile is
    [-inf]: on finite returns whose population deviation is positive the
    Parametric VaR is [-inf]; on a single return, whose deviation is
    zero, it is NaN (an infinity times zero). *)
Theorem parametric_var_at_certainty
    (s : MarketRiskAnalyzer) (df : DataFrame) (rs : list R) :
  data s = Some df -> column_Returns df = map Fin rs -> rs <> [] ->
  confidence_level s = 1 ->
  (0 < population_std rs ->
     fst (calculate_parametric_var s) = Return (Some NInf)) /\
  (length rs = 1%nat ->
     fst (calculate_parametric_var s) = Return (Some NaN)).
Proof.
  intros Hd Hr Hne Hc. unfold calculate_parametric_var.
  rewrite Hd, Hr, Hc, np_mean_Fin, np_std_Fin by assumption.
  assert (Hz : stats_norm_ppf (1 - 1) = NInf).
  { unfold stats_norm_ppf. replace (1 - 1) with 0 by lra.
    rewrite Rsign_zero. reflexivity. }
  rewrite Hz. cbn [fst]. split.
  - intros Hpos. simpl. rewrite (Rsign_pos _ Hpos). reflexivity.
  - intros Hone. destruct rs as [| r [| y rs]]; try discriminate Hone.
    assert (Hs : population_std [r] = 0).
    { unfold population_std, mean. simpl.
      replace (((r - (r + 0) / 1) * (r - (r + 0) / 1) + 0) / 1) with 0 by lra.
      apply sqrt_0. }
    rewrite Hs. simpl. rewrite Rsign_zero. reflexivity.
Qed.

Lemma sample_returns_vary : 0 < population_std sample_returns.
Proof.
  unfold population_std. apply sqrt_lt_R0.
  rewrite sample_returns_mean. unfold sample_returns. simpl. lra.
Qed.

Lemma parametric_var_at_certainty_witness :
  fst (calculate_parametric_var
         (loaded_analyzer 1 (frame_of_returns sample_returns)))
  = Return (Some NInf) /\
  fst (calculate_parametric_var (loaded_analyzer 1 (frame_of_returns [1 / 100])))
  = Return (Some NaN).
Proof.
  split.
  - refine (proj1 (parametric_var_at_certainty
                     (loaded_analyzer 1 (frame_of_returns sample_returns))
                     (frame_of_returns sample_returns) sample_returns
                     _ _ _ _) _).
    + reflexivity.
    + reflexivity.
    + discriminate.
    + reflexivity.
    + exact sample_returns_vary.
  - refine (proj2 (parametric_var_at_certainty
                     (loaded_analyzer 1 (frame_of_returns [1 / 100]))
                     (frame_of_returns [1 / 100]) [1 / 100] _ _ _ _) _).
    + reflexivity.
    + reflexivity.
    + discriminate.
    + reflexivity.
    + reflexivity.
Defined.

(* ================================================================== *)
(** * The volatility line of the report *)
(* ================================================================== *)

Lemma Series_std_sample (rs : list R) :
  (2 <= length rs)%nat -> Series_std 1 (map Fin rs) = Fin (sample_std rs).
Proof.
  intros Hlen. unfold Series_std, sample_std.
  rewrite Series_dropna_Fin, fsum_Fin, length_map.
  destruct (Nat.leb_spec (length rs) 1) as [Hle | _]; [lia |].
  assert (Hn : 2 <= INR (length rs)) by (apply (le_INR 2), Hlen).
  rewrite fdiv_Fin by lra. fold (mean rs).
  rewrite map_map. simpl.
  replace (map (fun x => Fin ((mean rs + - x) * (mean rs + - x))) rs)
    with (map Fin (map (fun x => (x - mean rs) * (x - mean rs)) rs)).
  2:{ rewrite map_map. apply map_ext. intros x. f_equal. lra. }
  rewrite fsum_Fin. simpl INR.
  rewrite fdiv_Fin by lra. apply np_sqrt_Fin.
  apply Rmult_le_pos.
  - apply (Rsum_squares_nonneg (fun x => x - mean rs)).
  - left. apply Rinv_0_lt_compat. lra.
Qed.

Lemma Series_std_sample_short (rs : list R) :
  (length rs <= 1)%nat -> Series_std 1 (map Fin rs) = NaN.
Proof.
  intros Hlen. unfold Series_std. rewrite Series_dropna_Fin, length_map.
  destruct (Nat.leb_spec (length rs) 1) as [_ | Hgt]; [reflexivity | lia].
Qed.

(** X13.  The volatility the report prints is the sample standard
    deviation (divisor N-1), not the population deviation (divisor N)
    that enters the Parametric VaR: for two or more finite returns it is
    at least as large, with [N-1] times its square equal to [N] times the
    square of the other; with a single return it is printed as NaN. *)
Theorem report_volatility_is_sample_std
    (s : MarketRiskAnalyzer) (df : DataFrame) (rs : list R) :
  data s = Some df -> column_Returns df = map Fin rs ->
  ((length rs <= 1)%nat ->
     [Text "Volatility (Daily): "; Fixed 4 NaN] ∈ fst (generate_risk_report s)) /\
  ((2 <= length rs)%nat ->
     [Text "Volatility (Daily): "; Fixed 4 (Fin (sample_std rs))]
       ∈ fst (generate_risk_report s) /\
     population_std rs <= sample_std rs /\
     sample_std rs * sample_std rs * (INR (length rs) - 1)
     = population_std rs * population_std rs * INR (length rs)).
Proof.
  intros Hd Hr. unfold generate_risk_report, report_body. rewrite Hd, Hr.
  cbn [fst]. split.
  - intros Hlen. rewrite Series_std_sample_short by exact Hlen. set_solver.
  - intros Hlen. rewrite Series_std_sample by exact Hlen.
    split; [set_solver |].
    assert (Hn : 2 <= INR (length rs)) by (apply (le_INR 2), Hlen).
    pose proof (Rsum_squares_nonneg (fun x => x - mean rs) rs) as Hss.
    unfold sample_std, population_std.
    set (SS := Rsum (map (fun x => (x - mean rs) * (x - mean rs)) rs)) in *.
    assert (Hi1 : 0 < / (INR (length rs) - 1)) by (apply Rinv_0_lt_compat; lra).
    assert (Hi2 : 0 < / INR (length rs)) by (apply Rinv_0_lt_compat; lra).
    assert (Hinv : / INR (length rs) <= / (INR (length rs) - 1))
      by (apply Rinv_le_contravar; lra).
    split.
    + apply sqrt_le_1; unfold Rdiv; nra.
    + rewrite !sqrt_sqrt by (unfold Rdiv; nra). field. lra.
Qed.

Lemma report_volatility_is_sample_std_witness :
  [Text "Volatility (Daily): "; Fixed 4 (Fin (sample_std sample_returns))]
    ∈ fst (generate_risk_report
             (loaded_analyzer (97 / 100) (frame_of_returns sample_returns))) /\
  population_std sample_returns <= sample_std sample_returns.
Proof.
  destruct (proj2 (report_volatility_is_sample_std
                     (loaded_analyzer (97 / 100) (frame_of_returns sample_returns))
                     (frame_of_returns sample_returns) sample_returns
                     eq_refl eq_refl))
    as (Hline & Hle & _).
  - simpl. lia.
  - split; [exact Hline | exact Hle].
Defined.

(* ================================================================== *)
(** * Log returns add up *)
(* ================================================================== *)

Lemma last_positive (p0 : R) (ps : list R) :
  Forall (fun x => 0 < x) (p0 :: ps) -> 0 < List.last (p0 :: ps) 1.
Proof.
  revert p0. induction ps as [| p ps IH]; intros p0 H.
  - apply Forall_cons in H. tauto.
  - apply Forall_cons in H as [_ H]. apply (IH p H).
Qed.

Lemma log_returns_telescope (p0 : R) (ps : list R) :
  Forall (fun x => 0 < x) (p0 :: ps) ->
  Rsum (zip_with (fun c p => ln (c / p)) ps (p0 :: ps))
  = ln (List.last (p0 :: ps) 1 / p0).
Proof.
  revert p0. induction ps as [| p1 ps IH]; intros p0 H.
  - apply Forall_cons in H as [Hp0 _]. simpl.
    replace (p0 / p0) with 1 by (field; lra). symmetry. apply ln_1.
  - pose proof (last_positive _ _ H) as Hlast.
    apply Forall_cons in H as [Hp0 H].
    pose proof H as H'. apply Forall_cons in H' as [Hp1 _].
    cbn [zip_with]. change (Rsum (?x :: ?l)) with (x + Rsum l).
    rewrite (IH p1 H).
    change (List.last (p0 :: p1 :: ps) 1) with (List.last (p1 :: ps) 1) in *.
    rewrite <- ln_mult.
    + f_equal. field. lra.
    + apply Rdiv_lt_0_compat; assumption.
    + apply Rdiv_lt_0_compat; assumption.
Qed.

Lemma dropna_attach_returns_column
    (sorted : list SheetRow) (p0 : R) (ps : list R) :
  column_Close sorted = map Fin (p0 :: ps) ->
  Forall (fun x => 0 < x) (p0 :: ps) ->
  Forall (fun r => Forall (fun a => notna a = true) (Others r)) sorted ->
  column_Returns (DataFrame_dropna (attach_returns sorted))
  = map Fin (zip_with (fun c p => ln (c / p)) ps (p0 :: ps)).
Proof.
  intros Hclose Hpos Hothers.
  destruct sorted as [| r0 rows]; [discriminate |].
  assert (Hlen : length ps = length rows).
  { apply (f_equal length) in Hclose. unfold column_Close in Hclose.
    rewrite !length_map in Hclose. simpl in Hclose. lia. }
  rewrite (attach_returns_positive r0 rows p0 ps Hclose Hpos).
  rewrite DataFrame_dropna_cons_NaN, DataFrame_dropna_all.
  - apply zip_with_mkRow_Returns.
    rewrite length_map, length_zip_with. simpl. lia.
  - apply Forall_cons in Hothers as [_ Hothers].
    apply zip_with_mkRow_notna; [| exact Hothers].
    unfold column_Close in Hclose. cbn [map] in Hclose.
    injection Hclose as _ Hclose. clear - Hclose.
    revert ps Hclose. induction rows as [| r rows IH]; intros ps Hclose;
      [constructor |].
    destruct ps as [| p ps]; [discriminate |].
    cbn [map] in Hclose. injection Hclose as Hr Hclose.
    constructor; [rewrite Hr; reflexivity | apply (IH ps Hclose)].
Qed.

Section Telescope.

Variable read_excel : string -> option (list SheetRow).
Variable sort_values : list SheetRow -> list SheetRow.
Hypothesis sort_values_Permutation : forall l, sort_values l ≡ₚ l.

(** X14.  Log returns are additive: for a non-empty table with strictly
    positive prices and no missing cell, the loaded returns sum to the
    log of the last date-sorted price over the first, so the mean that
    enters the Parametric VaR depends on those two prices and the number
    of returns only. *)
Theorem loaded_returns_sum_to_total_log_return
    (s : MarketRiskAnalyzer) (sheet : list SheetRow) :
  read_excel (file_path s) = Some sheet -> sheet <> [] ->
  Forall (fun r => exists p, Close r = Fin p /\ 0 < p) sheet ->
  Forall (fun r => Forall (fun a => notna a = true) (Others r)) sheet ->
  exists (df : DataFrame) (prices rs : list R),
    data (fst (load_data read_excel sort_values s)) = Some df /\
    column_Close (sort_values sheet) = map Fin prices /\
    column_Returns df = map Fin rs /\
    Rsum rs = ln (List.last prices 1 / hd 1 prices) /\
    mean rs = ln (List.last prices 1 / hd 1 prices) / INR (length rs).
Proof.
  intros Hread Hne Hclose Hothers.
  rewrite (load_data_Some _ _ s sheet Hread). simpl data.
  pose proof (sort_values_Permutation sheet) as Hperm.
  assert (Hclose' : Forall (fun r => exists p, Close r = Fin p /\ 0 < p)
                      (sort_values sheet)).
  { rewrite Forall_forall in *. intros r Hr. apply Hclose.
    rewrite <- Hperm. exact Hr. }
  assert (Hothers' : Forall (fun r => Forall (fun a => notna a = true) (Others r))
                       (sort_values sheet)).
  { rewrite Forall_forall in *. intros r Hr. apply Hothers.
    rewrite <- Hperm. exact Hr. }
  destruct (positive_Close_prices _ Hclose') as (prices & Hprices & Hpos).
  destruct prices as [| p0 ps].
  { exfalso. apply Hne. apply Permutation_nil.
    destruct (sort_values sheet); [exact Hperm | discriminate]. }
  eexists _, (p0 :: ps), _.
  split; [reflexivity |]. split; [exact Hprices |].
  split; [apply (dropna_attach_returns_column _ p0 ps); assumption |].
  assert (Hsum := log_returns_telescope p0 ps Hpos).
  split; [exact Hsum |].
  unfold mean. rewrite Hsum. reflexivity.
Qed.

End Telescope.

Lemma loaded_returns_sum_to_total_log_return_witness :
  exists (df : DataFrame) (prices rs : list R),
    data (fst (load_data (workbook five_days) sort_by_date_stable
                 (new_analyzer (95 / 100)))) = Some df /\
    column_Close (sort_by_date_stable five_days) = map Fin prices /\
    column_Returns df = map Fin rs /\
    Rsum rs = ln (List.last prices 1 / hd 1 prices) /\
    mean rs = ln (List.last prices 1 / hd 1 prices) / INR (length rs).
Proof.
  refine (loaded_returns_sum_to_total_log_return (workbook five_days)
            sort_by_date_stable sort_by_date_stable_Permutation
            (new_analyzer (95 / 100)) five_days _ _ _ _).
  - reflexivity.
  - discriminate.
  - repeat constructor; eexists; (split; [reflexivity | lra]).
  - repeat constructor.
Defined.

(* ================================================================== *)
(** * Rescaling the prices *)
(* ================================================================== *)

Lemma zip_with_log_ratio_scale (k : R) (cs ps : list R) :
  0 < k -> Forall (fun x => 0 < x) ps ->
  zip_with (fun c p => ln (c / p)) (map (Rmult k) cs) (map (Rmult k) ps)
  = zip_with (fun c p => ln (c / p)) cs ps.
Proof.
  intros Hk. revert ps. induction cs as [| c cs IH]; intros ps Hps;
    [reflexivity |].
  destruct Hps as [| p ps Hp Hps]; [reflexivity |].
  cbn [map zip_with]. rewrite (IH ps Hps). do 2 f_equal. field. lra.
Qed.

Lemma zip_with_mkRow_map (f : SheetRow -> SheetRow)
    (rows : list SheetRow) (rets : Series) :
  zip_with mkRow (map f rows) rets
  = map (fun r => mkRow (f (cells r)) (Returns r)) (zip_with mkRow rows rets).
Proof.
  revert rets. induction rows as [| r rows IH]; intros [| x rets];
    try reflexivity.
  cbn [map zip_with]. rewrite IH. reflexivity.
Qed.

(** Scaling positive prices changes the Close cell of every row and no
    return. *)
Lemma attach_returns_scale (k : R) (rows : list SheetRow) :
  0 < k -> Forall (fun r => exists p, Close r = Fin p /\ 0 < p) rows ->
  attach_returns (map (scale_Close k) rows)
  = map (fun r => mkRow (scale_Close k (cells r)) (Returns r))
      (attach_returns rows).
Proof.
  intros Hk Hpos. destruct rows as [| r0 rows]; [reflexivity |].
  destruct (positive_Close_prices _ Hpos) as (prices & Hprices & Hpp).
  destruct prices as [| p0 ps]; [discriminate |].
  assert (Hscaled : column_Close (map (scale_Close k) (r0 :: rows))
                    = map Fin (map (Rmult k) (p0 :: ps))).
  { unfold column_Close in *. rewrite !map_map.
    revert Hprices. generalize (r0 :: rows) as l. generalize (p0 :: ps) as qs.
    induction qs as [| q qs IH]; intros [| r l] H; try discriminate;
      [reflexivity |].
    cbn [map] in *. injection H as Hq H. rewrite (IH l H).
    unfold scale_Close at 1. cbn [Close]. rewrite Hq. reflexivity. }
  assert (Hpp' : Forall (fun x => 0 < x) (map (Rmult k) (p0 :: ps))).
  { rewrite Forall_forall in *. intros x Hx.
    apply list_elem_of_In, in_map_iff in Hx as (y & <- & Hy).
    apply Rmult_lt_0_compat; [exact Hk | apply Hpp, list_elem_of_In, Hy]. }
  cbn [map] in Hscaled, Hpp' |- *.
  rewrite (attach_returns_positive _ _ _ _ Hscaled Hpp').
  rewrite (attach_returns_positive _ _ _ _ Hprices Hpp).
  change (k * p0 :: map (Rmult k) ps) with (map (Rmult k) (p0 :: ps)).
  rewrite zip_with_log_ratio_scale by assumption.
  cbn [map]. rewrite zip_with_mkRow_map. reflexivity.
Qed.

Lemma DataFrame_dropna_scale (k : R) (df : DataFrame) :
  Forall (fun r => exists p, Close (cells r) = Fin p /\ 0 < p) df ->
  column_Returns
    (DataFrame_dropna
       (map (fun r => mkRow (scale_Close k (cells r)) (Returns r)) df))
  = column_Returns (DataFrame_dropna df).
Proof.
  unfold DataFrame_dropna, column_Returns.
  induction 1 as [| r df (p & Hp & _) _ IH]; [reflexivity |].
  cbn [map]. rewrite !filter_cons.
  assert (Hsame : row_notna (mkRow (scale_Close k (cells r)) (Returns r))
                  = row_notna r).
  { unfold row_notna, scale_Close. cbn [cells Close Others Returns].
    rewrite Hp. reflexivity. }
  rewrite Hsame.
  destruct (decide (row_notna r = true)); cbn [map]; rewrite IH; reflexivity.
Qed.

Section Rescale.

Variable read_excel : string -> option (list SheetRow).
Variable sort_values : list SheetRow -> list SheetRow.
Hypothesis sort_values_Permutation : forall l, sort_values l ≡ₚ l.

(** The order [sort_values] produces is decided by the dates alone:
    changing other cells of the rows changes the rows, not their order. *)
Hypothesis sort_values_by_date :
  forall (f : SheetRow -> SheetRow) (l : list SheetRow),
    (forall r, Date (f r) = Date r) ->
    sort_values (map f l) = map f (sort_values l).

(** X15.  Returns do not see a change of the price unit by a power of
    two (a stock split two for one, or its reverse): loading the same
    table with every strictly positive Close multiplied by [2^j] gives
    the same return series, hence the same Historical and Parametric VaR
    at the same confidence level. *)
Theorem price_scale_invariance
    (s s' : MarketRiskAnalyzer) (sheet : list SheetRow) (j : Z) :
  read_excel (file_path s) = Some sheet ->
  read_excel (file_path s') = Some (map (scale_Close (powerRZ 2 j)) sheet) ->
  confidence_level s' = confidence_level s ->
  Forall (fun r => exists p, Close r = Fin p /\ 0 < p) sheet ->
  let t := fst (load_data read_excel sort_values s) in
  let t' := fst (load_data read_excel sort_values s') in
  exists df df' : DataFrame,
    data t = Some df /\ data t' = Some df' /\
    column_Returns df' = column_Returns df /\
    fst (calculate_historical_var t') = fst (calculate_historical_var t) /\
    fst (calculate_parametric_var t') = fst (calculate_parametric_var t).
Proof.
  intros Hread Hread' Hc Hpos t t'. subst t t'.
  assert (Hk : 0 < powerRZ 2 j) by (apply powerRZ_lt; lra).
  revert Hread' Hk. generalize (powerRZ 2 j) as k. intros k Hread' Hk.
  rewrite (load_data_Some _ _ s sheet Hread).
  rewrite (load_data_Some _ _ s' _ Hread').
  rewrite sort_values_by_date by reflexivity.
  assert (Hpos' : Forall (fun r => exists p, Close r = Fin p /\ 0 < p)
                    (sort_values sheet)).
  { rewrite Forall_forall in *. intros r Hr. apply Hpos.
    rewrite <- (sort_values_Permutation sheet). exact Hr. }
  rewrite (attach_returns_scale k _ Hk Hpos').
  assert (Hcol := DataFrame_dropna_scale k (attach_returns (sort_values sheet))).
  rewrite <- (attach_returns_cells (sort_values sheet)) in Hpos'.
  rewrite Forall_map in Hpos'. specialize (Hcol Hpos').
  eexists _, _. split; [reflexivity |]. split; [reflexivity |].
  split; [exact Hcol |].
  unfold calculate_historical_var, calculate_parametric_var.
  cbn [data set_data confidence_level]. rewrite Hcol, Hc.
  split; [| reflexivity].
  destruct (Series_quantile _ _); reflexivity.
Qed.

End Rescale.

Lemma sort_by_date_stable_by_date
    (f : SheetRow -> SheetRow) (l : list SheetRow) :
  (forall r, Date (f r) = Date r) ->
  sort_by_date_stable (map f l) = map f (sort_by_date_stable l).
Proof.
  intros Hf. apply sort_ascending_map. intros a b.
  unfold Date_leb. rewrite !Hf. reflexivity.
Qed.

Lemma price_scale_invariance_witness :
  fst (calculate_historical_var
         (fst (load_data
                 (fun path => if String.eqb path "before_split.xlsx"
                              then Some five_days
                              else Some (map (scale_Close (powerRZ 2 (-1)))
                                           five_days))
                 sort_by_date_stable
                 (mkAnalyzer "after_split.xlsx" (95 / 100) None ∅))))
  = fst (calculate_historical_var
           (fst (load_data
                   (fun path => if String.eqb path "before_split.xlsx"
                                then Some five_days
                                else Some (map (scale_Close (powerRZ 2 (-1)))
                                             five_days))
                   sort_by_date_stable
                   (mkAnalyzer "before_split.xlsx" (95 / 100) None ∅)))).
Proof.
  destruct (price_scale_invariance
              (fun path => if String.eqb path "before_split.xlsx"
                           then Some five_days
                           else Some (map (scale_Close (powerRZ 2 (-1)))
                                        five_days))
              sort_by_date_stable sort_by_date_stable_Permutation
              sort_by_date_stable_by_date
              (mkAnalyzer "before_split.xlsx" (95 / 100) None ∅)
              (mkAnalyzer "after_split.xlsx" (95 / 100) None ∅)
              five_days (-1)%Z)
    as (df & df' & _ & _ & _ & Hh & _).
  - reflexivity.
  - reflexivity.
  - reflexivity.
  - repeat constructor; eexists; (split; [reflexivity | lra]).
  - exact Hh.
Defined.
